(** * BasicBonds.Bonds: projection calendar, cashflow binning and portfolio totals

    A shallow embedding of the cells of the [Bonds] space
    (lifelib_modelx/assets/BasicBonds/Bonds/__init__.py) and the proofs of
    its documented properties.

    The cells are Python functions over QuantLib objects.  QuantLib itself
    is not part of the space: its dates, periods and bond objects enter
    the development through the interface [QuantLib] below, and every
    theorem holds for any implementation of that interface that satisfies
    the stated laws.  Module [QL] gives one implementation (Gregorian
    dates with QuantLib's year range and its rule for adding a year).

    Amounts, rates and prices are Python floats: binary64 numbers, here the
    primitive [float] with its additions, products and quotients rounded
    as the machine rounds them.  The integer [0] that starts a vector is
    the float [0]: Python turns it into [0.0] when it adds a float to
    it. *)

From Stdlib Require Import ZArith Lia String Ascii PrimFloat Uint63.
From stdpp Require Import base tactics option list.

(** ** Outcomes of a Python call *)

(** The exceptions the cells can raise.  QuantLib's errors reach Python as
    [RuntimeError]. *)
Inductive exn : Set :=
  | AssertionError
  | KeyError
  | IndexError
  | RuntimeError.

(** A call returns a value, raises, or is still running when the fuel
    given to an unbounded loop is used up. *)
Inductive outcome (A : Type) : Type :=
  | Return (a : A)
  | Raise (e : exn)
  | Diverge.

Arguments Return {A} a.
Arguments Raise {A} e.
Arguments Diverge {A}.

#[global] Instance outcome_ret : MRet outcome := fun A a => Return a.

#[global] Instance outcome_bind : MBind outcome := fun A B f m =>
  match m with
  | Return a => f a
  | Raise e => Raise e
  | Diverge => Diverge
  end.

(** A QuantLib call that fails raises [RuntimeError]. *)
Definition ql {A : Type} (r : option A) : outcome A :=
  match r with
  | Some a => Return a
  | None => Raise RuntimeError
  end.

(** [assert c] *)
Definition assert (c : bool) : outcome unit :=
  if c then Return tt else Raise AssertionError.

(** [for x in xs: s = body(x, s)] *)
Fixpoint for_each {A S : Type} (body : A → S → outcome S) (xs : list A) (s : S)
  : outcome S :=
  match xs with
  | [] => Return s
  | x :: xs' => s' ← body x s; for_each body xs' s'
  end.

(** [range(n)] *)
Definition range (n : nat) : list nat := seq 0 n.

(** ** The QuantLib interface *)

Inductive Frequency : Set := Annual | Semiannual.

(** A cash flow of a leg: [cf.date()] and [cf.amount()]. *)
Record CashFlow (D : Type) : Type := mkCashFlow {
  cf_date : D;
  cf_amount : float
}.
Arguments mkCashFlow {D} _ _.
Arguments cf_date {D} _.
Arguments cf_amount {D} _.

(** A schedule, known by the arguments of [ql.Schedule(...)] that
    [schedule] varies; the calendar, the two conventions, the generation
    rule and the end-of-month flag are constants of the cell. *)
Record Schedule (D : Type) : Type := mkSchedule {
  sch_issue_date : D;
  sch_maturity_date : D;
  sch_tenor : Frequency
}.
Arguments mkSchedule {D} _ _ _.
Arguments sch_issue_date {D} _.
Arguments sch_maturity_date {D} _.
Arguments sch_tenor {D} _.

Class QuantLib : Type := {
  (** [ql.Date]; dates are compared by their serial numbers. *)
  Date : Type;
  serialNumber : Date → Z;
  (** [ql.Date(s, "%Y-%m-%d")] *)
  Date_of_string : string → option Date;
  (** [ql.Date(day, month, year)] *)
  Date_of_dmy : Z → Z → Z → option Date;
  (** [d + ql.Period('1Y')] *)
  plus_1Y : Date → option Date;
  (** [d + ql.Period(dur)] for a duration label such as ["6M"] *)
  plus_Period : Date → string → option Date;
  (** [ql.ZeroCurve(dates, rates, Actual360, UnitedStates, Linear,
      Compounded, Annual)] *)
  ZeroCurve : Type;
  ql_ZeroCurve : list Date → list float → option ZeroCurve;
  (** Whether [ql.Schedule(issue_date, maturity_date, tenor, ...)] builds
      the schedule; it raises when it does not. *)
  ql_Schedule_accepts : Date → Date → Frequency → bool;
  (** [ql.FixedRateBond(settlement_days, face_value, schedule, coupons,
      Actual360, Unadjusted)] with the discounting engine on the
      zero-spreaded curve set. *)
  FixedRateBond : Type;
  ql_FixedRateBond :
    Z → float → Schedule Date → list float → ZeroCurve → float →
    option FixedRateBond;
  bond_cashflows : FixedRateBond → list (CashFlow Date);
  bond_redemptions : FixedRateBond → list (CashFlow Date);
  bond_notional : FixedRateBond → float;
  bond_cleanPrice : FixedRateBond → float
}.

(** [d1 < d2] and [d1 <= d2] on dates. *)
Definition Date_lt `{QuantLib} (d1 d2 : Date) : bool :=
  (serialNumber d1 <? serialNumber d2)%Z.
Definition Date_le `{QuantLib} (d1 d2 : Date) : bool :=
  (serialNumber d1 <=? serialNumber d2)%Z.

(** What the proofs need of the library: a date plus one year is a later
    date. *)
Class QuantLibLaws `{QuantLib} : Prop := {
  plus_1Y_later :
    ∀ d d' : Date, plus_1Y d = Some d' → (serialNumber d < serialNumber d')%Z
}.

(** ** The bond table *)

(** A pandas timestamp, read through [.day], [.month] and [.year]. *)
Record Timestamp : Set := mkTimestamp {
  ts_year : Z;
  ts_month : Z;
  ts_day : Z
}.

(** A row of [bond_data]. *)
Record BondRecord : Type := mkBondRecord {
  settlement_days : Z;
  face_value : Z;
  issue_date : Timestamp;
  bond_term : Z;
  maturity_date : Timestamp;
  tenor : string;
  coupon_rate : float;
  z_spread : float
}.

(** [float(n)] for an [int64]: the nearest binary64 number. *)
Definition float_of_int64 (n : Z) : float :=
  if (n =? -9223372036854775808)%Z then (-9223372036854775808)%float
  else match n with
       | Z0 => 0%float
       | Zpos _ => of_uint63 (of_Z n)
       | Zneg p => (- of_uint63 (of_Z (Zpos p)))%float
       end.

(** ** The cells *)

Section Bonds.

Context `{QuantLib}.

(** The references of the space. *)
Variable date_init : string.
Variable date_end : string.
Variable bond_data : list (Z * BondRecord).
Variable zero_curve : list (string * float).

(** [bond_data.index] *)
Definition bond_data_index : list Z := bond_data.*1.

(** [bond_data.loc[bond_id]] *)
Fixpoint loc_in (rows : list (Z * BondRecord)) (bond_id : Z) : outcome BondRecord :=
  match rows with
  | [] => Raise KeyError
  | (k, r) :: rows' => if Z.eqb k bond_id then Return r else loc_in rows' bond_id
  end.

Definition loc (bond_id : Z) : outcome BondRecord := loc_in bond_data bond_id.

(** [date_(i)] *)
Fixpoint date_ (i : nat) : outcome Date :=
  match i with
  | O => ql (Date_of_string date_init)
  | S i' => d ← date_ i'; ql (plus_1Y d)
  end.

(** The [while True] loop of [step_size], entered with the counter at
    [t]. *)
Fixpoint step_size_loop (fuel : nat) (d_end : Date) (t : nat) : outcome nat :=
  match fuel with
  | O => Diverge
  | S fuel' =>
      d ← date_ t;
      if Date_lt d d_end then step_size_loop fuel' d_end (t + 1)
      else Return t
  end.

(** [step_size()] *)
Definition step_size (fuel : nat) : outcome nat :=
  d_end ← ql (Date_of_string date_end);
  step_size_loop fuel d_end 0.

(** [schedule(bond_id)]; every [bond_data.loc[bond_id]] reads the same
    row. *)
Definition schedule (bond_id : Z) : outcome (Schedule Date) :=
  r ← loc bond_id;
  let d := issue_date r in
  issue ← ql (Date_of_dmy (ts_day d) (ts_month d) (ts_year d));
  let d := maturity_date r in
  maturity ← ql (Date_of_dmy (ts_day d) (ts_month d) (ts_year d));
  let tenor := if String.eqb (tenor r) "6Y" then Semiannual else Annual in
  if ql_Schedule_accepts issue maturity tenor
  then Return (mkSchedule issue maturity tenor)
  else Raise RuntimeError.

(** [riskfree_curve()]; the evaluation date it sets is [date_(0)] at every
    call. *)
Definition riskfree_curve : outcome ZeroCurve :=
  d0 ← date_ 0;
  spot_dates ← mapM (λ dur, ql (plus_Period d0 dur)) (zero_curve.*1);
  let spot_rates := 0%float :: zero_curve.*2 in
  ql (ql_ZeroCurve (d0 :: spot_dates) spot_rates).

(** [fixed_rate_bond(bond_id)] *)
Definition fixed_rate_bond (bond_id : Z) : outcome FixedRateBond :=
  r ← loc bond_id;
  let coupons := [coupon_rate r] in
  sch ← schedule bond_id;
  curve ← riskfree_curve;
  ql (ql_FixedRateBond (settlement_days r) (float_of_int64 (face_value r)) sch
        coupons curve (z_spread r)).

(** [xs[k]] *)
Definition item {A : Type} (xs : list A) (k : nat) : outcome A :=
  match xs !! k with
  | Some x => Return x
  | None => Raise IndexError
  end.

(** The [while i < len(leg)] loop of [cashflows] and [redemptions] in
    period [t], entered with the vector [result] and the cashflow index
    [i]; it leaves with the new vector and index.  [n] bounds the number of
    iterations and is [len(leg) - i] at every call.  With [check] the loop
    has the assertion on the order of the dates ([cashflows]), without it
    has none ([redemptions]).  Both comparisons of an iteration read
    [date_(t+1)], so it is read once here. *)
Fixpoint while_leg (check : bool) (leg : list (CashFlow Date)) (t : nat)
    (n : nat) (result : list float) (i : nat) : outcome (list float * nat) :=
  match leg !! i with
  | None => Return (result, i)
  | Some cf =>
      match n with
      | O => Diverge
      | S n' =>
          _ ← (if check && (0 <? i)%nat then
                 prev ← item leg (i - 1);
                 assert (Date_le (cf_date prev) (cf_date cf))
               else Return tt);
          d_t ← date_ t;
          d_t1 ← date_ (t + 1);
          if Date_le d_t (cf_date cf) && Date_lt (cf_date cf) d_t1 then
            x ← item result t;
            while_leg check leg t n' (<[t := (x + cf_amount cf)%float]> result)
              (i + 1)
          else if Date_le d_t1 (cf_date cf) then
            Return (result, i)
          else
            while_leg check leg t n' result (i + 1)
      end
  end.

(** The body shared by [cashflows] and [redemptions]:
    [result = [0] * step_size(); leg = ...; i = 0;
     for t in range(step_size()): while i < len(leg): ...; return result]. *)
Definition sweep (check : bool) (fuel : nat)
    (get_leg : outcome (list (CashFlow Date))) : outcome (list float) :=
  n ← step_size fuel;
  let result := replicate n 0%float in
  leg ← get_leg;
  let i := 0%nat in
  n' ← step_size fuel;
  st ← for_each (λ t st, while_leg check leg t (length leg - st.2) st.1 st.2)
         (range n') (result, i);
  Return st.1.

(** [cashflows(bond_id)] *)
Definition cashflows (fuel : nat) (bond_id : Z) : outcome (list float) :=
  sweep true fuel (bond ← fixed_rate_bond bond_id; Return (bond_cashflows bond)).

(** [redemptions(bond_id)] *)
Definition redemptions (fuel : nat) (bond_id : Z) : outcome (list float) :=
  sweep false fuel (bond ← fixed_rate_bond bond_id; Return (bond_redemptions bond)).

(** The body shared by [cashflows_total] and [redemptions_total]:
    [result[t] += cell(i)[t]] for every period [t] and every [i] of
    [bond_data.index]. *)
Definition portfolio_total (cell : Z → outcome (list float)) (fuel : nat)
  : outcome (list float) :=
  n ← step_size fuel;
  let result := replicate n 0%float in
  n' ← step_size fuel;
  for_each (λ t result,
      for_each (λ i result,
          y ← item result t;
          v ← cell i;
          x ← item v t;
          Return (<[t := (y + x)%float]> result))
        bond_data_index result)
    (range n') result.

(** [cashflows_total()] *)
Definition cashflows_total (fuel : nat) : outcome (list float) :=
  portfolio_total (cashflows fuel) fuel.

(** [redemptions_total()] *)
Definition redemptions_total (fuel : nat) : outcome (list float) :=
  portfolio_total (redemptions fuel) fuel.

(** [market_values()] *)
Definition market_values : outcome (list float) :=
  mapM (λ i,
      b ← fixed_rate_bond i;
      b' ← fixed_rate_bond i;
      Return (bond_notional b * bond_cleanPrice b' / 100)%float)
    bond_data_index.

End Bonds.

(** The references as the space ships them. *)
Definition default_date_init : string := "2022-01-01".
Definition default_date_end : string := "2053-01-01".

(** ** A date library

    Gregorian dates as QuantLib's [Date] has them: a date is read through
    its year, month and day of month, is ordered by its serial number (the
    day count that puts 1 January 1901 at 367), and lies in the years
    1901 to 2199.  Adding a period that leaves that range fails.  How a
    bond's cash flows and price follow from its terms is left open: the
    library takes the bond constructor as its argument. *)
Module QL.

Record Date : Set := mkDate {
  year : Z;
  month : Z;
  dayOfMonth : Z
}.

Definition isLeap (y : Z) : bool :=
  ((y mod 4 =? 0) && negb (y mod 100 =? 0) || (y mod 400 =? 0))%Z.

Definition monthLength (m : Z) (leap : bool) : Z :=
  match m with
  | 1 | 3 | 5 | 7 | 8 | 10 | 12 => 31
  | 4 | 6 | 9 | 11 => 30
  | 2 => if leap then 29 else 28
  | _ => 0
  end%Z.

(** Days of the year before the first of month [m]. *)
Definition monthOffset (m : Z) (leap : bool) : Z :=
  (match m with
   | 1 => 0 | 2 => 31 | 3 => 59 | 4 => 90 | 5 => 120 | 6 => 151
   | 7 => 181 | 8 => 212 | 9 => 243 | 10 => 273 | 11 => 304 | 12 => 334
   | _ => 0
   end + (if leap && (2 <? m) then 1 else 0))%Z.

(** Serial number of 31 December of year [y - 1]. *)
Definition yearOffset (y : Z) : Z :=
  (365 * (y - 1900) + (y - 1897) / 4 - (y - 1901) / 100 + (y - 1601) / 400)%Z.

Definition serialNumber (d : Date) : Z :=
  (yearOffset (year d) + monthOffset (month d) (isLeap (year d)) + dayOfMonth d)%Z.

Definition year_in_range (y : Z) : bool := ((1901 <=? y) && (y <=? 2199))%Z.

(** [Date(d, m, y)] *)
Definition Date_of_dmy (d m y : Z) : option Date :=
  if year_in_range y && ((1 <=? m) && (m <=? 12))%Z
     && ((1 <=? d) && (d <=? monthLength m (isLeap y)))%Z
  then Some (mkDate y m d) else None.

Definition digit (c : ascii) : option Z :=
  let n := Z.of_N (N_of_ascii c) in
  if ((48 <=? n) && (n <=? 57))%Z then Some (n - 48)%Z else None.

(** The value of a run of decimal digits. *)
Fixpoint number_from (acc : Z) (cs : list ascii) : option Z :=
  match cs with
  | [] => Some acc
  | c :: cs' => k ← digit c; number_from (10 * acc + k)%Z cs'
  end.

(** [Date(s, "%Y-%m-%d")] *)
Definition Date_of_string (s : string) : option Date :=
  match list_ascii_of_string s with
  | [y1; y2; y3; y4; sep1; m1; m2; sep2; d1; d2] =>
      if Ascii.eqb sep1 "-" && Ascii.eqb sep2 "-" then
        y ← number_from 0 [y1; y2; y3; y4];
        m ← number_from 0 [m1; m2];
        d ← number_from 0 [d1; d2];
        Date_of_dmy d m y
      else None
  | _ => None
  end.

(** The day after [d]. *)
Definition next_day (d : Date) : option Date :=
  if (dayOfMonth d <? monthLength (month d) (isLeap (year d)))%Z then
    Some (mkDate (year d) (month d) (dayOfMonth d + 1))
  else if (month d <? 12)%Z then
    Some (mkDate (year d) (month d + 1) 1)
  else if year_in_range (year d + 1) then
    Some (mkDate (year d + 1) 1 1)
  else None.

Fixpoint advance_days (n : nat) (d : Date) : option Date :=
  match n with
  | O => Some d
  | S n' => d' ← next_day d; advance_days n' d'
  end.

(** [d + Period(n, Months)]: the same day of the month [n] months on, or
    the last day of that month when it is shorter. *)
Definition advance_months (n : Z) (d : Date) : option Date :=
  let k := (month d - 1 + n)%Z in
  let y := (year d + k / 12)%Z in
  let m := (k mod 12 + 1)%Z in
  if year_in_range y then
    Some (mkDate y m (Z.min (dayOfMonth d) (monthLength m (isLeap y))))
  else None.

(** [d + Period(n, Years)]: the same day and month [n] years on, with 29
    February moved to the 28th in a year that is not leap. *)
Definition advance_years (n : Z) (d : Date) : option Date :=
  let y := (year d + n)%Z in
  if year_in_range y then
    if ((dayOfMonth d =? 29) && (month d =? 2))%Z && negb (isLeap y)
    then Some (mkDate y (month d) 28)
    else Some (mkDate y (month d) (dayOfMonth d))
  else None.

Definition plus_1Y (d : Date) : option Date := advance_years 1 d.

(** The dates the constructors build: a day of a month of a year in
    range. *)
Definition valid (d : Date) : Prop :=
  year_in_range (year d) = true
  ∧ (1 ≤ month d ≤ 12)%Z
  ∧ (1 ≤ dayOfMonth d ≤ monthLength (month d) (isLeap (year d)))%Z.

(** [d + Period(label)] for a label made of a count and one of the units
    [D], [W], [M] and [Y]. *)
Definition plus_Period (d : Date) (label : string) : option Date :=
  match rev (list_ascii_of_string label) with
  | unit :: ((_ :: _) as count) =>
      n ← number_from 0 (rev count);
      if Ascii.eqb unit "D" then advance_days (Z.to_nat n) d
      else if Ascii.eqb unit "W" then advance_days (Z.to_nat (7 * n)) d
      else if Ascii.eqb unit "M" then advance_months n d
      else if Ascii.eqb unit "Y" then advance_years n d
      else None
  | _ => None
  end.

(** A zero curve is its nodes; the dates of the nodes increase. *)
Record ZeroCurve : Set := mkZeroCurve {
  curve_dates : list Date;
  curve_rates : list float
}.

Fixpoint increasing (ds : list Date) : bool :=
  match ds with
  | d1 :: ((d2 :: _) as ds') =>
      (serialNumber d1 <? serialNumber d2)%Z && increasing ds'
  | _ => true
  end.

Definition ql_ZeroCurve (dates : list Date) (rates : list float)
  : option ZeroCurve :=
  if (length dates =? length rates)%nat && increasing dates
  then Some (mkZeroCurve dates rates) else None.

(** [Schedule(effectiveDate, terminationDate, tenor, ...)] requires the
    effective date to be earlier than the termination date. *)
Definition ql_Schedule_accepts (issue maturity : Date) (tenor : Frequency)
  : bool :=
  (serialNumber issue <? serialNumber maturity)%Z.

(** A bond is what the cells read of it. *)
Record FixedRateBond : Set := mkFixedRateBond {
  bond_cashflows : list (CashFlow Date);
  bond_redemptions : list (CashFlow Date);
  bond_notional : float;
  bond_cleanPrice : float
}.

Definition bond_constructor : Type :=
  Z → float → Schedule Date → list float → ZeroCurve → float →
  option FixedRateBond.

End QL.

(** The library with the bond constructor [mk]. *)
Definition QuantLib_QL (mk : QL.bond_constructor) : QuantLib := {|
  Date := QL.Date;
  serialNumber := QL.serialNumber;
  Date_of_string := QL.Date_of_string;
  Date_of_dmy := QL.Date_of_dmy;
  plus_1Y := QL.plus_1Y;
  plus_Period := QL.plus_Period;
  ZeroCurve := QL.ZeroCurve;
  ql_ZeroCurve := QL.ql_ZeroCurve;
  ql_Schedule_accepts := QL.ql_Schedule_accepts;
  FixedRateBond := QL.FixedRateBond;
  ql_FixedRateBond := mk;
  bond_cashflows := QL.bond_cashflows;
  bond_redemptions := QL.bond_redemptions;
  bond_notional := QL.bond_notional;
  bond_cleanPrice := QL.bond_cleanPrice
|}.

(** ** Sums of amounts *)

(** [acc += x] for each [x] of [xs] in turn. *)
Definition accumulate (acc : float) (xs : list float) : float :=
  fold_left PrimFloat.add xs acc.

(** The sum of a vector, added up from [0] from left to right. *)
Definition fsum (xs : list float) : float := accumulate 0%float xs.

(** [a <= cf.date() < b] *)
Definition dated_in `{QuantLib} (a b : Date) (cf : CashFlow Date) : bool :=
  Date_le a (cf_date cf) && Date_lt (cf_date cf) b.

(** The amounts of the cash flows of [leg] dated in [[a, b)], in the
    order of the leg. *)
Definition amounts_in `{QuantLib} (a b : Date) (leg : list (CashFlow Date))
  : list float :=
  cf_amount <$> filter (λ cf, dated_in a b cf = true) leg.

(** The dates of [leg] do not decrease from one cash flow to the next. *)
Definition date_ordered `{QuantLib} (leg : list (CashFlow Date)) : Prop :=
  ∀ j x y, leg !! j = Some x → leg !! S j = Some y →
    (serialNumber (cf_date x) ≤ serialNumber (cf_date y))%Z.

(** The check of [date_ordered]. *)
Fixpoint dates_ordered `{QuantLib} (leg : list (CashFlow Date)) : bool :=
  match leg with
  | x :: ((y :: _) as leg') =>
      Date_le (cf_date x) (cf_date y) && dates_ordered leg'
  | _ => true
  end.

(** The entries for period [t] of the vectors [vec] of the bonds [ids], in
    the order of [ids]. *)
Definition column (vec : Z → list float) (ids : list Z) (t : nat)
  : list float :=
  (λ i, default 0%float (vec i !! t)) <$> ids.

(** ** Sample bonds

    Two bond constructors for the library [QuantLib_QL]: [bullet] pays the
    coupon of one year together with the face value at maturity, and
    [fixed b] builds the bond [b] whatever the terms. *)
Module Sample.

Definition bullet : QL.bond_constructor :=
  λ _ face sch coupons _ _,
    let maturity := sch_maturity_date sch in
    let rate := default 0%float (head coupons) in
    Some {|
      QL.bond_cashflows :=
        [mkCashFlow maturity (face * rate)%float; mkCashFlow maturity face];
      QL.bond_redemptions := [mkCashFlow maturity face];
      QL.bond_notional := face;
      QL.bond_cleanPrice := 100%float
    |}.

Definition fixed (b : QL.FixedRateBond) : QL.bond_constructor :=
  λ _ _ _ _ _ _, Some b.

(** A bond known by its two legs. *)
Definition legs (cashflows redemptions : list (CashFlow QL.Date)) : QL.FixedRateBond :=
  {| QL.bond_cashflows := cashflows;
     QL.bond_redemptions := redemptions;
     QL.bond_notional := 100%float;
     QL.bond_cleanPrice := 100%float |}.

Definition on (y m d : Z) (amount : float) : CashFlow QL.Date :=
  mkCashFlow (QL.mkDate y m d) amount.

(** A row with the given face value, issue and maturity dates, tenor and
    coupon rate. *)
Definition row (face : Z) (issue maturity : Timestamp) (tenor : string)
    (rate : float) : BondRecord :=
  {| settlement_days := 0;
     face_value := face;
     issue_date := issue;
     bond_term := ts_year maturity - ts_year issue;
     maturity_date := maturity;
     tenor := tenor;
     coupon_rate := rate;
     z_spread := 0.0078125%float |}.

Definition bond_data : list (Z * BondRecord) :=
  [ (1%Z, row 1000 (mkTimestamp 2020 6 15) (mkTimestamp 2023 6 15) "1Y"
            0.0625%float);
    (2%Z, row 2000 (mkTimestamp 2019 3 1) (mkTimestamp 2024 3 1) "6M"
            0.03125%float);
    (3%Z, row 500 (mkTimestamp 2021 9 30) (mkTimestamp 2027 9 30) "6Y"
            0.046875%float) ].

Definition zero_curve : list (string * float) :=
  [ ("6M"%string, 0.00390625%float); ("1Y"%string, 0.0078125%float);
    ("10Y"%string, 0.015625%float) ].

(** An ordered leg with a cash flow before 2022 and one after 2025. *)
Definition ordered_leg : list (CashFlow QL.Date) :=
  [on 2021 6 15 30; on 2022 6 15 30; on 2023 6 15 30; on 2023 6 15 1000;
   on 2026 6 15 7]%float.

(** An ordered leg whose amounts do not add up to the same number in every
    grouping. *)
Definition uneven_leg : list (CashFlow QL.Date) :=
  [on 2022 3 1 10000000000000000; on 2022 6 1 1; on 2023 3 1 1;
   on 2023 6 1 1]%float.

(** Two legs that are not ordered: in the first the second cash flow is
    dated before the first; in the second it is as well, behind a cash
    flow dated after 2025. *)
Definition unordered_leg : list (CashFlow QL.Date) :=
  [on 2023 1 1 5; on 2022 6 1 5]%float.

Definition late_unordered_leg : list (CashFlow QL.Date) :=
  [on 2030 1 1 5; on 2023 6 1 5]%float.

(** A table whose second row has a maturity date that is no date. *)
Definition bad_bond_data : list (Z * BondRecord) :=
  [ (1%Z, row 1000 (mkTimestamp 2020 6 15) (mkTimestamp 2023 6 15) "1Y"
            0.0625%float);
    (5%Z, row 700 (mkTimestamp 2020 2 1) (mkTimestamp 2023 2 30) "1Y"
            0.015625%float);
    (3%Z, row 500 (mkTimestamp 2021 9 30) (mkTimestamp 2027 9 30) "6Y"
            0.046875%float) ].

(** Two tables with the same three rows, in two orders; the three bonds
    mature in 2023. *)
Definition large_first : list (Z * BondRecord) :=
  [ (1%Z, row 10000000000000000 (mkTimestamp 2020 6 15) (mkTimestamp 2023 6 15)
            "1Y" 0.0625%float);
    (2%Z, row 1 (mkTimestamp 2020 3 1) (mkTimestamp 2023 3 1) "1Y" 0.5%float);
    (3%Z, row 1 (mkTimestamp 2021 9 30) (mkTimestamp 2023 9 30) "1Y" 0.5%float) ].

Definition large_last : list (Z * BondRecord) :=
  [ (2%Z, row 1 (mkTimestamp 2020 3 1) (mkTimestamp 2023 3 1) "1Y" 0.5%float);
    (3%Z, row 1 (mkTimestamp 2021 9 30) (mkTimestamp 2023 9 30) "1Y" 0.5%float);
    (1%Z, row 10000000000000000 (mkTimestamp 2020 6 15) (mkTimestamp 2023 6 15)
            "1Y" 0.0625%float) ].

(** The libraries that build these legs. *)
Definition lib_bullet : QuantLib := QuantLib_QL bullet.
Definition lib_ordered : QuantLib := QuantLib_QL (fixed (legs ordered_leg [])).
Definition lib_uneven : QuantLib := QuantLib_QL (fixed (legs uneven_leg [])).
Definition lib_unordered : QuantLib :=
  QuantLib_QL (fixed (legs unordered_leg unordered_leg)).
Definition lib_late_unordered : QuantLib :=
  QuantLib_QL (fixed (legs late_unordered_leg [])).

(** The bond that [lib_bullet] builds for a row of a table, and an empty
    bond where it builds none. *)
Definition built (table : list (Z * BondRecord)) (i : Z) : QL.FixedRateBond :=
  match fixed_rate_bond (H := lib_bullet) "2022-01-01" table zero_curve i with
  | Return b => b
  | _ => legs [] []
  end.

End Sample.

(** * Properties *)

(** ** Outcomes *)

Lemma bind_Return {A B : Type} (m : outcome A) (f : A → outcome B) (b : B) :
  m ≫= f = Return b ↔ ∃ a, m = Return a ∧ f a = Return b.
Proof.
  split.
  - destruct m as [a| |]; simpl; intros E; try discriminate. by exists a.
  - intros (a & -> & E). exact E.
Qed.

Lemma ql_Return {A : Type} (r : option A) (a : A) : ql r = Return a ↔ r = Some a.
Proof. destruct r; simpl; split; congruence. Qed.

Lemma ql_not_Diverge {A : Type} (r : option A) : ql r ≠ Diverge.
Proof. by destruct r. Qed.

Lemma item_Return {A : Type} (xs : list A) (k : nat) (x : A) :
  item xs k = Return x ↔ xs !! k = Some x.
Proof. unfold item. destruct (xs !! k); split; congruence. Qed.

(** ** The period calendar *)

Section Calendar.

Context `{QuantLibLaws}.
Variable date_init : string.
Variable date_end : string.

Local Abbreviation boundary := (date_ date_init).

Lemma date_S_Return (t : nat) (d' : Date) :
  boundary (S t) = Return d' ↔ ∃ d, boundary t = Return d ∧ plus_1Y d = Some d'.
Proof.
  simpl. rewrite bind_Return. by setoid_rewrite ql_Return.
Qed.

(** A boundary that exists has all the boundaries before it. *)
Lemma date_defined_before (i j : nat) (dj : Date) :
  boundary j = Return dj → i ≤ j → ∃ di, boundary i = Return di.
Proof.
  intros Hj Hle. revert dj Hj. induction Hle as [|j Hle IH]; intros dj Hj.
  - by exists dj.
  - apply date_S_Return in Hj as (d & Hd & _). by eapply IH.
Qed.

Lemma date_not_Diverge (i : nat) : boundary i ≠ Diverge.
Proof.
  induction i as [|i IH]; simpl.
  - apply ql_not_Diverge.
  - destruct (boundary i); simpl; try done. apply ql_not_Diverge.
Qed.

(** [date_] raises no error but the library's. *)
Lemma date_Raise (i : nat) (err : exn) :
  boundary i = Raise err → err = RuntimeError.
Proof.
  induction i as [|i IH]; simpl.
  - destruct (Date_of_string date_init); simpl; congruence.
  - destruct (boundary i) as [d| |]; simpl; [|by auto|done].
    destruct (plus_1Y d); simpl; congruence.
Qed.

(** A failed boundary fails all the later ones. *)
Lemma date_Raise_later (e : exn) (i j : nat) :
  boundary i = Raise e → i ≤ j → boundary j = Raise e.
Proof.
  intros Hi Hle. induction Hle as [|j Hle IH]; [done|]. simpl. by rewrite IH.
Qed.

(** The boundaries increase strictly. *)
Lemma date_increasing (i j : nat) (di dj : Date) :
  i < j → boundary i = Return di → boundary j = Return dj →
  (serialNumber di < serialNumber dj)%Z.
Proof.
  intros Hlt Hi. revert dj. induction Hlt as [|j Hlt IH]; intros dj Hj.
  - apply date_S_Return in Hj as (d & Hd & Hplus).
    assert (d = di) as -> by congruence. by apply plus_1Y_later.
  - apply date_S_Return in Hj as (d & Hd & Hplus).
    specialize (IH d Hd). apply plus_1Y_later in Hplus. lia.
Qed.

Lemma date_monotone (i j : nat) (di dj : Date) :
  i ≤ j → boundary i = Return di → boundary j = Return dj →
  (serialNumber di ≤ serialNumber dj)%Z.
Proof.
  intros Hle Hi Hj. destruct (decide (i = j)) as [->|Hne].
  - assert (di = dj) as -> by congruence. lia.
  - assert (i < j) as Hlt by lia.
    pose proof (date_increasing i j di dj Hlt Hi Hj). lia.
Qed.

Lemma step_size_loop_S (fuel : nat) (e : Date) (t : nat) :
  step_size_loop date_init (S fuel) e t
  = boundary t ≫= λ d,
      if Date_lt d e then step_size_loop date_init fuel e (t + 1) else Return t.
Proof. done. Qed.

(** What a returning scan of [step_size] says of the boundaries. *)
Lemma step_size_loop_Return (fuel : nat) (e : Date) (t N : nat) :
  step_size_loop date_init fuel e t = Return N →
  t ≤ N
  ∧ (∃ dN, boundary N = Return dN ∧ (serialNumber e ≤ serialNumber dN)%Z)
  ∧ (∀ k, t ≤ k < N →
       ∃ dk, boundary k = Return dk ∧ (serialNumber dk < serialNumber e)%Z).
Proof.
  revert t. induction fuel as [|fuel IH]; intros t; simpl; [done|].
  intros Hrun. apply bind_Return in Hrun as (d & Hd & Hrun).
  unfold Date_lt in Hrun. destruct (Z.ltb_spec (serialNumber d) (serialNumber e)) as [Hlt|Hge].
  - apply IH in Hrun as (Hle & HN & Hbelow). split; [lia|]. split; [done|].
    intros k Hk. destruct (decide (k = t)) as [->|Hne].
    + by exists d.
    + apply Hbelow. lia.
  - injection Hrun as <-. split; [lia|]. split; [by exists d|]. intros k Hk. lia.
Qed.

(** What a raising scan says of the boundaries: the error is the
    library's, raised by the first boundary that does not exist, and the
    boundaries before it are before [e]. *)
Lemma step_size_loop_Raise (fuel : nat) (e : Date) (t : nat) (err : exn) :
  step_size_loop date_init fuel e t = Raise err →
  err = RuntimeError
  ∧ ∃ t', t ≤ t' ∧ boundary t' = Raise RuntimeError
      ∧ ∀ k, t ≤ k < t' →
          ∃ dk, boundary k = Return dk ∧ (serialNumber dk < serialNumber e)%Z.
Proof.
  revert t. induction fuel as [|fuel IH]; intros t; simpl; [done|].
  destruct (boundary t) as [d|err0|] eqn:Hd; simpl; [| |done].
  - unfold Date_lt.
    destruct (Z.ltb_spec (serialNumber d) (serialNumber e)) as [Hlt|Hge]; [|done].
    intros Hrun. apply IH in Hrun as (-> & t' & Hle & Ht' & Hbelow).
    split; [done|]. exists t'. split; [lia|]. split; [done|].
    intros k Hk. destruct (decide (k = t)) as [->|Hne].
    + by exists d.
    + apply Hbelow. lia.
  - intros [= ->]. pose proof (date_Raise _ _ Hd) as ->. split; [done|].
    exists t. split; [lia|]. split; [done|]. intros k Hk. lia.
Qed.

(** A scan that returns or raises does the same with more fuel. *)
Lemma step_size_loop_fuel (fuel fuel' : nat) (e : Date) (t : nat) :
  step_size_loop date_init fuel e t ≠ Diverge → fuel ≤ fuel' →
  step_size_loop date_init fuel' e t = step_size_loop date_init fuel e t.
Proof.
  revert fuel' t. induction fuel as [|fuel IH]; intros fuel' t; simpl; [done|].
  intros Hrun Hle. destruct fuel' as [|fuel']; [lia|]. simpl.
  destruct (boundary t) as [d| |]; simpl in *; try done.
  destruct (Date_lt d e); [|done]. apply IH; [done|lia].
Qed.

(** The scan from [t] stops at the first boundary on or after [e]. *)
Lemma step_size_loop_first (fuel : nat) (e : Date) (t N : nat) (dN : Date) :
  boundary N = Return dN → (serialNumber e ≤ serialNumber dN)%Z →
  (∀ k dk, t ≤ k < N → boundary k = Return dk →
     (serialNumber dk < serialNumber e)%Z) →
  t ≤ N → N - t < fuel →
  step_size_loop date_init fuel e t = Return N.
Proof.
  intros HN Hge. revert t. induction fuel as [|fuel IH]; intros t Hbelow Hle Hfuel; [lia|].
  simpl. destruct (decide (t = N)) as [->|Hne].
  - rewrite HN. simpl. unfold Date_lt.
    destruct (Z.ltb_spec (serialNumber dN) (serialNumber e)); [lia|done].
  - destruct (date_defined_before t N dN HN Hle) as [d Hd]. rewrite Hd. simpl.
    unfold Date_lt. pose proof (Hbelow t d ltac:(lia) Hd).
    destruct (Z.ltb_spec (serialNumber d) (serialNumber e)); [|lia].
    apply IH; [|lia|lia]. intros k dk Hk. apply Hbelow. lia.
Qed.

(** The scan returns as soon as some boundary from [t] on is on or after
    [e]. *)
Lemma step_size_loop_reaches (fuel : nat) (e : Date) (t M : nat) (dM : Date) :
  boundary M = Return dM → (serialNumber e ≤ serialNumber dM)%Z →
  t ≤ M → M - t < fuel →
  ∃ N, step_size_loop date_init fuel e t = Return N.
Proof.
  intros HM Hge. revert t. induction fuel as [|fuel IH]; intros t Hle Hfuel; [lia|].
  simpl. destruct (date_defined_before t M dM HM Hle) as [d Hd]. rewrite Hd. simpl.
  unfold Date_lt. destruct (Z.ltb_spec (serialNumber d) (serialNumber e)) as [Hlt|Hnlt].
  - assert (t ≠ M) by (intros ->; assert (d = dM) by congruence; subst; lia).
    apply IH; lia.
  - by exists t.
Qed.

(** The scan from a boundary [d] ends within [e - d] steps, counted in
    days: every step moves the boundary at least a day on. *)
Lemma step_size_loop_terminates (fuel : nat) (e : Date) (t : nat) (d : Date) :
  boundary t = Return d →
  Z.to_nat (serialNumber e - serialNumber d) < fuel →
  step_size_loop date_init fuel e t ≠ Diverge.
Proof.
  revert t d. induction fuel as [|fuel IH]; intros t d Hd Hfuel; [lia|].
  simpl. rewrite Hd. simpl. unfold Date_lt.
  destruct (Z.ltb_spec (serialNumber d) (serialNumber e)) as [Hlt|Hnlt]; [|done].
  rewrite Nat.add_1_r. destruct (boundary (S t)) as [d'| |] eqn:Hd'.
  - apply (IH (S t) d' Hd').
    apply date_S_Return in Hd' as (d1 & Hd1 & Hplus).
    assert (d1 = d) as -> by congruence. apply plus_1Y_later in Hplus. lia.
  - destruct fuel as [|fuel]; [lia|]. rewrite step_size_loop_S, Hd'. done.
  - by apply date_not_Diverge in Hd'.
Qed.

(** When the library can add a year to every boundary before [e], some
    boundary is on or after [e]. *)
Lemma calendar_reaches (e : Date) (n t : nat) (d : Date) :
  (∀ k dk, boundary k = Return dk → (serialNumber dk < serialNumber e)%Z →
     is_Some (plus_1Y dk)) →
  boundary t = Return d →
  Z.to_nat (serialNumber e - serialNumber d) ≤ n →
  ∃ M dM, t ≤ M ∧ boundary M = Return dM ∧ (serialNumber e ≤ serialNumber dM)%Z.
Proof.
  intros Hadv. revert t d. induction n as [|n IH]; intros t d Hd Hn.
  - exists t, d. split; [lia|]. split; [done|lia].
  - destruct (Z.lt_ge_cases (serialNumber d) (serialNumber e)) as [Hlt|Hge].
    + destruct (Hadv t d Hd Hlt) as [d' Hplus].
      assert (boundary (S t) = Return d') as Hd' by (apply date_S_Return; eauto).
      apply plus_1Y_later in Hplus.
      destruct (IH (S t) d' Hd') as (M & dM & HM & HdM & HeM); [lia|].
      exists M, dM. split; [lia|done].
    + exists t, d. split; [lia|done].
Qed.

(** More fuel does not change a [step_size()] that returns or raises. *)
Lemma step_size_fuel (fuel fuel' : nat) :
  step_size date_init date_end fuel ≠ Diverge → fuel ≤ fuel' →
  step_size date_init date_end fuel' = step_size date_init date_end fuel.
Proof.
  unfold step_size. destruct (Date_of_string date_end) as [e|]; simpl; [|done].
  apply step_size_loop_fuel.
Qed.

(** With valid dates and a library that advances up to the end date the
    scan returns an index whose boundary is on or after the end date. *)
Lemma step_size_returns_reached (d0 e : Date) :
  Date_of_string date_init = Some d0 →
  Date_of_string date_end = Some e →
  (∀ k dk, boundary k = Return dk → (serialNumber dk < serialNumber e)%Z →
     is_Some (plus_1Y dk)) →
  ∃ (N fuel0 : nat) (dN : Date),
    (∀ fuel, fuel0 ≤ fuel → step_size date_init date_end fuel = Return N)
    ∧ boundary N = Return dN ∧ (serialNumber e ≤ serialNumber dN)%Z.
Proof.
  intros Hinit Hend Hadv.
  assert (boundary 0 = Return d0) as Hb0 by (simpl; by rewrite Hinit).
  destruct (calendar_reaches e _ 0 d0 Hadv Hb0 (Nat.le_refl _)) as (M & dM & _ & HM & HeM).
  destruct (step_size_loop_reaches (S M) e 0 M dM HM HeM) as [N HN]; [lia|lia|].
  pose proof (step_size_loop_Return _ _ _ _ HN) as (_ & (dN & HdN & HeN) & _).
  exists N, (S M), dN. split; [|done].
  intros fuel Hfuel. unfold step_size. rewrite Hend. simpl.
  rewrite <- HN. apply step_size_loop_fuel; [by rewrite HN|done].
Qed.

(** The two ways [step_size()] ends for valid dates: it returns the first
    index whose boundary is on or after the end date, or no boundary is on
    or after the end date and it raises the error of the library, which
    adds no year to the last boundary. *)
Lemma step_size_outcome (d0 e : Date) :
  Date_of_string date_init = Some d0 →
  Date_of_string date_end = Some e →
  ∃ fuel0,
    (∃ N : nat,
       (∀ fuel, fuel0 ≤ fuel → step_size date_init date_end fuel = Return N)
       ∧ (∃ dN, boundary N = Return dN ∧ (serialNumber e ≤ serialNumber dN)%Z)
       ∧ (∀ k, k < N →
            ∃ dk, boundary k = Return dk ∧ (serialNumber dk < serialNumber e)%Z))
    ∨ ((∀ fuel, fuel0 ≤ fuel →
          step_size date_init date_end fuel = Raise RuntimeError)
       ∧ (∃ t dt, boundary t = Return dt
            ∧ (serialNumber dt < serialNumber e)%Z ∧ plus_1Y dt = None)
       ∧ (∀ k dk, boundary k = Return dk →
            (serialNumber dk < serialNumber e)%Z)).
Proof.
  intros Hinit Hend.
  assert (boundary 0 = Return d0) as Hb0 by (simpl; by rewrite Hinit).
  remember (S (Z.to_nat (serialNumber e - serialNumber d0))) as fuel0 eqn:Hfuel0.
  exists fuel0.
  assert (step_size_loop date_init fuel0 e 0 ≠ Diverge) as Hterm
    by (eapply step_size_loop_terminates; [done|lia]).
  clear Hfuel0.
  assert (∀ fuel, fuel0 ≤ fuel →
            step_size date_init date_end fuel = step_size_loop date_init fuel0 e 0)
    as Hfuel.
  { intros fuel Hle. unfold step_size. rewrite Hend. simpl.
    by apply step_size_loop_fuel. }
  destruct (step_size_loop date_init fuel0 e 0) as [N|err|] eqn:Hrun; [| |done].
  - left. exists N. split; [done|].
    apply step_size_loop_Return in Hrun as (_ & Hat & Hbelow).
    split; [done|]. intros k Hk. apply Hbelow. lia.
  - right. apply step_size_loop_Raise in Hrun as (-> & t' & _ & Ht' & Hbelow).
    split; [done|].
    destruct t' as [|t]; [congruence|].
    destruct (Hbelow t) as (dt & Hdt & Hlt); [lia|].
    split.
    + exists t, dt. split; [done|]. split; [done|].
      simpl in Ht'. rewrite Hdt in Ht'. simpl in Ht'.
      by destruct (plus_1Y dt).
    + intros k dk Hk. destruct (decide (k < S t)) as [Hin|Hout].
      * destruct (Hbelow k) as (dk' & Hdk' & Hlt'); [lia|]. congruence.
      * rewrite (date_Raise_later RuntimeError (S t) k) in Hk; [done|done|lia].
Qed.

(** C3: for valid valuation and end dates, [step_size()] ends in one of
    two ways.  It returns the smallest [N] whose boundary [date_(N)] is on
    or after the end date: [date_(N) >= end], every boundary before it (so
    [date_(N-1)] when [N > 0]) is before the end date, no index with a
    boundary on or after the end date is smaller, and [N = 0] when the end
    date is not after the valuation date.  Or it raises [RuntimeError]:
    then the end date is after the valuation date, every boundary that
    exists is before the end date, and the library adds no year to the last
    of them. *)
Theorem step_size_smallest_boundary (d0 e : Date) :
  Date_of_string date_init = Some d0 →
  Date_of_string date_end = Some e →
  ∃ fuel0,
    (∃ N : nat,
       (∀ fuel, fuel0 ≤ fuel → step_size date_init date_end fuel = Return N)
       ∧ (∃ dN, boundary N = Return dN ∧ (serialNumber e ≤ serialNumber dN)%Z)
       ∧ (∀ k, k < N →
            ∃ dk, boundary k = Return dk ∧ (serialNumber dk < serialNumber e)%Z)
       ∧ (∀ M dM, boundary M = Return dM →
            (serialNumber e ≤ serialNumber dM)%Z → N ≤ M)
       ∧ ((serialNumber e ≤ serialNumber d0)%Z → N = 0))
    ∨ ((∀ fuel, fuel0 ≤ fuel →
          step_size date_init date_end fuel = Raise RuntimeError)
       ∧ (∃ t dt, boundary t = Return dt
            ∧ (serialNumber dt < serialNumber e)%Z ∧ plus_1Y dt = None)
       ∧ (∀ k dk, boundary k = Return dk →
            (serialNumber dk < serialNumber e)%Z)
       ∧ (serialNumber d0 < serialNumber e)%Z).
Proof.
  intros Hinit Hend.
  assert (boundary 0 = Return d0) as Hb0 by (simpl; by rewrite Hinit).
  destruct (step_size_outcome d0 e Hinit Hend)
    as [fuel0 [(N & Hret & Hat & Hbelow)|(Hraise & Hlast & Hall)]];
    exists fuel0; [left|right].
  - exists N. split; [done|]. split; [done|]. split; [done|]. split.
    + intros M dM HM HeM. destruct (decide (N ≤ M)) as [|Hgt]; [done|].
      destruct (Hbelow M) as (dk & Hdk & Hlt); [lia|].
      assert (dk = dM) as -> by congruence. lia.
    + intros Hle. destruct N as [|N]; [done|].
      destruct (Hbelow 0) as (dk & Hdk & Hlt); [lia|].
      assert (dk = d0) as -> by congruence. lia.
  - split; [done|]. split; [done|]. split; [done|]. by apply (Hall 0).
Qed.

(** C7: [date_(0)] is the valuation date, [date_(t)] for [t > 0] is
    [date_(t-1)] plus one year (and fails exactly when that date or the
    addition fails), and the boundaries that exist increase strictly with
    the index. *)
Theorem date_annual_increasing :
  date_ date_init 0 = ql (Date_of_string date_init)
  ∧ (∀ t d', date_ date_init (S t) = Return d' ↔
       ∃ d, date_ date_init t = Return d ∧ plus_1Y d = Some d')
  ∧ (∀ t, date_ date_init (S t) = date_ date_init t ≫= λ d, ql (plus_1Y d))
  ∧ (∀ i j di dj, i < j →
       date_ date_init i = Return di → date_ date_init j = Return dj →
       (serialNumber di < serialNumber dj)%Z).
Proof.
  split; [done|]. split; [apply date_S_Return|]. split; [done|].
  apply date_increasing.
Qed.

(** C10: [step_size()] terminates whatever the two date strings are: with
    enough fuel the scan returns or raises, and more fuel does not change
    its outcome.  When both strings are valid it reaches a [t] with
    [date_(t) >= end] and returns it, or no boundary is on or after the
    end date and it raises [RuntimeError].  [date_(i)] terminates for
    every [i]. *)
Theorem step_size_terminates :
  (∃ fuel0, step_size date_init date_end fuel0 ≠ Diverge
     ∧ ∀ fuel, fuel0 ≤ fuel →
         step_size date_init date_end fuel = step_size date_init date_end fuel0)
  ∧ (∀ d0 e,
       Date_of_string date_init = Some d0 → Date_of_string date_end = Some e →
       ∃ fuel0,
         (∃ t dt, boundary t = Return dt
            ∧ (serialNumber e ≤ serialNumber dt)%Z
            ∧ ∀ fuel, fuel0 ≤ fuel → step_size date_init date_end fuel = Return t)
         ∨ ((∀ k dk, boundary k = Return dk →
               (serialNumber dk < serialNumber e)%Z)
            ∧ ∀ fuel, fuel0 ≤ fuel →
                step_size date_init date_end fuel = Raise RuntimeError))
  ∧ (∀ i, date_ date_init i ≠ Diverge).
Proof.
  split; [|split].
  - unfold step_size. destruct (Date_of_string date_end) as [e|]; simpl.
    + destruct (Date_of_string date_init) as [d0|] eqn:Hinit.
      * assert (boundary 0 = Return d0) as Hb0 by (simpl; by rewrite Hinit).
        exists (S (Z.to_nat (serialNumber e - serialNumber d0))).
        assert (step_size_loop date_init
                  (S (Z.to_nat (serialNumber e - serialNumber d0))) e 0 ≠ Diverge)
          as Hterm by (eapply step_size_loop_terminates; [done|lia]).
        split; [done|]. intros fuel Hfuel. by apply step_size_loop_fuel.
      * exists 1. split; [simpl; by rewrite Hinit|].
        intros [|fuel] Hfuel; [lia|]. simpl. by rewrite Hinit.
    + exists 0. split; [done|]. done.
  - intros d0 e Hinit Hend.
    destruct (step_size_outcome d0 e Hinit Hend)
      as [fuel0 [(N & Hret & (dN & HN & HeN) & _)|(Hraise & _ & Hall)]];
      exists fuel0; [left|right].
    + by exists N, dN.
    + done.
  - apply date_not_Diverge.
Qed.

End Calendar.
(** ** The sweep over a leg *)

Section Amounts.

Context `{QuantLib}.

Lemma dated_in_true (a b : Date) (cf : CashFlow Date) :
  dated_in a b cf = true ↔
  (serialNumber a ≤ serialNumber (cf_date cf) < serialNumber b)%Z.
Proof. unfold dated_in, Date_le, Date_lt. lia. Qed.

Lemma dated_in_false (a b : Date) (cf : CashFlow Date) :
  dated_in a b cf = false ↔
  (serialNumber (cf_date cf) < serialNumber a
   ∨ serialNumber b ≤ serialNumber (cf_date cf))%Z.
Proof. unfold dated_in, Date_le, Date_lt. lia. Qed.

(** In an ordered leg the dates do not decrease from any cash flow to any
    later one. *)
Lemma date_ordered_le (leg : list (CashFlow Date)) (i j : nat) (x y : CashFlow Date) :
  date_ordered leg → i ≤ j → leg !! i = Some x → leg !! j = Some y →
  (serialNumber (cf_date x) ≤ serialNumber (cf_date y))%Z.
Proof.
  intros Hord Hle Hx. revert y. induction Hle as [|j Hle IH]; intros y Hy.
  - assert (x = y) as -> by congruence. lia.
  - destruct (leg !! j) as [z|] eqn:Hz.
    + specialize (IH z eq_refl). pose proof (Hord j z y Hz Hy). lia.
    + apply lookup_ge_None in Hz. apply lookup_lt_Some in Hy. lia.
Qed.

Lemma dates_ordered_sound (leg : list (CashFlow Date)) :
  dates_ordered leg = true ↔ date_ordered leg.
Proof.
  induction leg as [|x [|y leg] IH]; simpl.
  - split; [|done]. by intros _ j x y Hx.
  - split; [|done]. intros _ [|j] u v Hu Hv; done.
  - rewrite andb_true_iff, IH. unfold Date_le. rewrite Z.leb_le. split.
    + intros [Hxy Hord] [|j] u v Hu Hv; simpl in *.
      * injection Hu as <-. injection Hv as <-. done.
      * by apply (Hord j).
    + intros Hord. split; [by apply (Hord 0)|].
      intros j u v Hu Hv. by apply (Hord (S j)).
Qed.

Lemma date_ordered_tail (cf : CashFlow Date) (leg : list (CashFlow Date)) :
  date_ordered (cf :: leg) → date_ordered leg.
Proof. intros Hord j x y Hx Hy. by apply (Hord (S j)). Qed.

Lemma amounts_in_cons (a b : Date) (cf : CashFlow Date) (leg : list (CashFlow Date)) :
  amounts_in a b (cf :: leg)
  = (if dated_in a b cf then [cf_amount cf] else []) ++ amounts_in a b leg.
Proof.
  unfold amounts_in. rewrite filter_cons.
  destruct (dated_in a b cf); case_decide; done.
Qed.

Lemma amounts_in_app (a b : Date) (l1 l2 : list (CashFlow Date)) :
  amounts_in a b (l1 ++ l2) = amounts_in a b l1 ++ amounts_in a b l2.
Proof. unfold amounts_in. by rewrite filter_app, fmap_app. Qed.

(** Cash flows dated outside [[a, b)] add nothing. *)
Lemma amounts_in_outside (a b : Date) (leg : list (CashFlow Date)) :
  (∀ j cf, leg !! j = Some cf → dated_in a b cf = false) →
  amounts_in a b leg = [].
Proof.
  induction leg as [|cf leg IH]; intros Hout; [done|].
  rewrite amounts_in_cons, (Hout 0 cf eq_refl), IH; [done|].
  intros j cf' Hj. by apply (Hout (S j)).
Qed.

(** The cash flows of an ordered leg dated in [[a, c)] are those dated in
    [[a, b)] followed by those dated in [[b, c)]. *)
Lemma amounts_in_split (a b c : Date) (leg : list (CashFlow Date)) :
  date_ordered leg →
  (serialNumber a ≤ serialNumber b)%Z → (serialNumber b ≤ serialNumber c)%Z →
  amounts_in a c leg = amounts_in a b leg ++ amounts_in b c leg.
Proof.
  intros Hord Hab Hbc. induction leg as [|cf leg IH]; [done|].
  rewrite !amounts_in_cons, (IH (date_ordered_tail _ _ Hord)).
  destruct (dated_in a c cf) eqn:Hac; destruct (dated_in a b cf) eqn:Hab';
    destruct (dated_in b c cf) eqn:Hbc';
    repeat match goal with
           | E : dated_in _ _ _ = true |- _ => apply dated_in_true in E
           | E : dated_in _ _ _ = false |- _ => apply dated_in_false in E
           end; try lia; try done.
  rewrite (amounts_in_outside a b leg); [done|].
  intros j cf' Hj. apply dated_in_false. right.
  pose proof (date_ordered_le (cf :: leg) 0 (S j) cf cf' Hord ltac:(lia) eq_refl Hj).
  lia.
Qed.

(** The cash flows of an ordered leg dated in consecutive periods, period
    after period, are those dated between the first and the last
    boundary. *)
Lemma amounts_in_periods (D : nat → Date) (leg : list (CashFlow Date)) (t m : nat) :
  date_ordered leg →
  (∀ k k', t ≤ k → k ≤ k' → k' ≤ t + m →
     (serialNumber (D k) ≤ serialNumber (D k'))%Z) →
  concat ((λ k, amounts_in (D k) (D (S k)) leg) <$> seq t m)
  = amounts_in (D t) (D (t + m)) leg.
Proof.
  intros Hord. revert t. induction m as [|m IH]; intros t Hmono; simpl.
  - symmetry. apply amounts_in_outside. intros j cf _. apply dated_in_false.
    rewrite Nat.add_0_r. lia.
  - rewrite IH by (intros k k' ? ? ?; apply Hmono; lia).
    replace (t + S m) with (S t + m) by lia.
    symmetry. apply amounts_in_split; [done|apply Hmono; lia|apply Hmono; lia].
Qed.

End Amounts.

Section Sweep.

Context `{QuantLibLaws}.
Variable date_init : string.
Variable date_end : string.

Local Abbreviation boundary := (date_ date_init).

Lemma while_leg_eq (check : bool) (leg : list (CashFlow Date)) (t n : nat)
    (result : list float) (i : nat) :
  while_leg date_init check leg t n result i
  = match leg !! i with
    | None => Return (result, i)
    | Some cf =>
        match n with
        | O => Diverge
        | S n' =>
            _ ← (if check && (0 <? i)%nat then
                   prev ← item leg (i - 1);
                   assert (Date_le (cf_date prev) (cf_date cf))
                 else Return tt);
            d_t ← boundary t;
            d_t1 ← boundary (t + 1);
            if Date_le d_t (cf_date cf) && Date_lt (cf_date cf) d_t1 then
              x ← item result t;
              while_leg date_init check leg t n'
                (<[t := (x + cf_amount cf)%float]> result) (i + 1)
            else if Date_le d_t1 (cf_date cf) then
              Return (result, i)
            else
              while_leg date_init check leg t n' result (i + 1)
        end
    end.
Proof. by destruct n. Qed.

(** The assertion of an iteration either passes, and then with [check] the
    cash flow is not dated before its predecessor, or fails on a cash flow
    dated before its predecessor. *)
Lemma order_check_cases (check : bool) (leg : list (CashFlow Date)) (i : nat)
    (cf : CashFlow Date) :
  leg !! i = Some cf →
  ((if check && (0 <? i)%nat then
      prev ← item leg (i - 1);
      assert (Date_le (cf_date prev) (cf_date cf))
    else Return tt) = Return tt
   ∧ (check = true → ∀ j x, i = S j → leg !! j = Some x →
        (serialNumber (cf_date x) ≤ serialNumber (cf_date cf))%Z))
  ∨ ((if check && (0 <? i)%nat then
        prev ← item leg (i - 1);
        assert (Date_le (cf_date prev) (cf_date cf))
      else Return tt) = Raise AssertionError
     ∧ check = true
     ∧ ∃ j x, i = S j ∧ leg !! j = Some x
         ∧ (serialNumber (cf_date cf) < serialNumber (cf_date x))%Z).
Proof.
  intros Hcf. destruct check; simpl; [|left; split; [done|done]].
  destruct i as [|j]; simpl; [left; split; [done|]; intros _ j x; lia|].
  rewrite Nat.sub_0_r. destruct (leg !! j) as [x|] eqn:Hx.
  - unfold item. rewrite Hx. simpl. unfold assert, Date_le.
    destruct (Z.leb_spec (serialNumber (cf_date x)) (serialNumber (cf_date cf))).
    + left. split; [done|]. intros _ j' x' [= <-] Hx'.
      assert (x' = x) as -> by congruence. done.
    + right. split; [done|]. split; [done|]. by exists j, x.
  - apply lookup_ge_None in Hx. apply lookup_lt_Some in Hcf. lia.
Qed.

(** One run of the inner loop in period [t], whose bounds are [a] and [b]:
    it either leaves at the first cash flow from [i] on dated on or after
    [b] (or at the end of the leg), or, with [check], it fails on a cash
    flow dated before its predecessor, every cash flow passed before being
    dated before [b]. *)
Lemma while_leg_run (check : bool) (leg : list (CashFlow Date)) (t : nat)
    (a b : Date) (n : nat) (result : list float) (i : nat) :
  boundary t = Return a → boundary (t + 1) = Return b →
  t < length result → i ≤ length leg → length leg - i ≤ n →
  (∃ result' i',
      while_leg date_init check leg t n result i = Return (result', i')
      ∧ i ≤ i' ≤ length leg
      ∧ length result' = length result
      ∧ (∀ j cf, i ≤ j < i' → leg !! j = Some cf →
           (serialNumber (cf_date cf) < serialNumber b)%Z)
      ∧ (i' = length leg
         ∨ ∃ cf, leg !! i' = Some cf
             ∧ (serialNumber b ≤ serialNumber (cf_date cf))%Z)
      ∧ (check = true → ∀ j x y, i ≤ S j ≤ i' →
           leg !! j = Some x → leg !! S j = Some y →
           (serialNumber (cf_date x) ≤ serialNumber (cf_date y))%Z))
  ∨ (check = true
     ∧ while_leg date_init check leg t n result i = Raise AssertionError
     ∧ ∃ j x y, i ≤ S j ∧ leg !! j = Some x ∧ leg !! S j = Some y
         ∧ (serialNumber (cf_date y) < serialNumber (cf_date x))%Z
         ∧ ∀ k cf, i ≤ k ≤ j → leg !! k = Some cf →
             (serialNumber (cf_date cf) < serialNumber b)%Z).
Proof.
  intros Ha Hb. revert result i.
  induction n as [|n IH]; intros result i Ht Hi Hn;
    rewrite while_leg_eq; destruct (leg !! i) as [cf|] eqn:Hcf.
  - apply lookup_lt_Some in Hcf. lia.
  - left. exists result, i. split; [done|]. split; [lia|]. split; [done|].
    split; [intros; lia|]. apply lookup_ge_None in Hcf.
    split; [left; lia|].
    intros _ j x y Hj _ Hy. apply lookup_lt_Some in Hy. lia.
  - pose proof (lookup_lt_Some _ _ _ Hcf) as Hlt.
    destruct (order_check_cases check leg i cf Hcf)
      as [[-> Hpass]|(-> & Hcheck & j & x & -> & Hx & Hdesc)]; simpl.
    2: { right. split; [done|]. split; [done|]. exists j, x, cf.
         split; [lia|]. split; [done|]. split; [done|]. split; [done|].
         intros; lia. }
    rewrite Ha, Hb. simpl. unfold Date_le, Date_lt.
    destruct (Z.leb_spec (serialNumber a) (serialNumber (cf_date cf))) as [Hale|Hlta];
      destruct (Z.ltb_spec (serialNumber (cf_date cf)) (serialNumber b)) as [Hltb|Hble];
      simpl.
    + (* dated in the period: added to [result[t]] *)
      destruct (lookup_lt_is_Some_2 result t Ht) as [x Hx].
      rewrite (proj2 (item_Return result t x) Hx). simpl.
      destruct (IH (<[t := (x + cf_amount cf)%float]> result) (i + 1))
        as [(result' & i' & -> & Hi' & Hlen & Hpassed & Hexit & Hpairs)
           |(Hcheck & -> & j & u & v & Hj & Hu & Hv & Hdesc & Hpassed)];
        [by rewrite length_insert|lia|lia| |].
      * left. exists result', i'. split; [done|]. split; [lia|].
        split; [by rewrite Hlen, length_insert|].
        split; [|split; [done|]].
        -- intros j cf' Hj Hcf'. destruct (decide (j = i)) as [->|Hne].
           ++ assert (cf' = cf) as -> by congruence. done.
           ++ apply (Hpassed j); [lia|done].
        -- intros Hcheck j u v Hj Hu Hv. destruct (decide (S j = i)) as [<-|Hne].
           ++ assert (v = cf) as -> by congruence. by apply (Hpass Hcheck j).
           ++ apply (Hpairs Hcheck j); [lia|done|done].
      * right. split; [done|]. split; [done|]. exists j, u, v.
        split; [lia|]. split; [done|]. split; [done|]. split; [done|].
        intros k cf' Hk Hcf'. destruct (decide (k = i)) as [->|Hne].
        -- assert (cf' = cf) as -> by congruence. done.
        -- apply (Hpassed k); [lia|done].
    + (* dated on or after the end of the period: the loop breaks *)
      destruct (Z.leb_spec (serialNumber b) (serialNumber (cf_date cf))); [|lia].
      left. exists result, i. split; [done|]. split; [lia|]. split; [done|].
      split; [intros; lia|]. split; [right; by exists cf|].
      intros Hcheck j u v Hj Hu Hv. assert (S j = i) as <- by lia.
      assert (v = cf) as -> by congruence. by apply (Hpass Hcheck j).
    + (* dated before the period: passed over *)
      destruct (Z.leb_spec (serialNumber b) (serialNumber (cf_date cf))); [lia|].
      destruct (IH result (i + 1))
        as [(result' & i' & -> & Hi' & Hlen & Hpassed & Hexit & Hpairs)
           |(Hcheck & -> & j & u & v & Hj & Hu & Hv & Hdesc & Hpassed)];
        [done|lia|lia| |].
      * left. exists result', i'. split; [done|]. split; [lia|]. split; [done|].
        split; [|split; [done|]].
        -- intros j cf' Hj Hcf'. destruct (decide (j = i)) as [->|Hne].
           ++ assert (cf' = cf) as -> by congruence. done.
           ++ apply (Hpassed j); [lia|done].
        -- intros Hcheck j u v Hj Hu Hv. destruct (decide (S j = i)) as [<-|Hne].
           ++ assert (v = cf) as -> by congruence. by apply (Hpass Hcheck j).
           ++ apply (Hpairs Hcheck j); [lia|done|done].
      * right. split; [done|]. split; [done|]. exists j, u, v.
        split; [lia|]. split; [done|]. split; [done|]. split; [done|].
        intros k cf' Hk Hcf'. destruct (decide (k = i)) as [->|Hne].
        -- assert (cf' = cf) as -> by congruence. done.
        -- apply (Hpassed k); [lia|done].
    + (* before [a] and on or after [b]: the loop breaks *)
      destruct (Z.leb_spec (serialNumber b) (serialNumber (cf_date cf))); [|lia].
      left. exists result, i. split; [done|]. split; [lia|]. split; [done|].
      split; [intros; lia|]. split; [right; by exists cf|].
      intros Hcheck j u v Hj Hu Hv. assert (S j = i) as <- by lia.
      assert (v = cf) as -> by congruence. by apply (Hpass Hcheck j).
  - left. exists result, i. split; [done|]. split; [lia|]. split; [done|].
    split; [intros; lia|]. apply lookup_ge_None in Hcf.
    split; [left; lia|].
    intros _ j x y Hj _ Hy. apply lookup_lt_Some in Hy. lia.
Qed.

(** The [for t in range(N)] loop from period [t] on, [m] periods to go,
    over boundaries [D 0 .. D N]: it either returns, having left every
    inner loop as [while_leg_run] says, or fails with [check] on a cash
    flow dated before its predecessor, every cash flow before that one
    being dated before [D N]. *)
Lemma for_periods_run (check : bool) (leg : list (CashFlow Date)) (D : nat → Date)
    (N m t : nat) (result : list float) (i : nat) :
  (∀ k, k ≤ N → boundary k = Return (D k)) →
  t + m = N → length result = N → i ≤ length leg →
  (∀ j cf, j < i → leg !! j = Some cf →
     (serialNumber (cf_date cf) < serialNumber (D t))%Z) →
  (∃ result' i',
      for_each (λ t st, while_leg date_init check leg t (length leg - st.2) st.1 st.2)
        (seq t m) (result, i) = Return (result', i')
      ∧ length result' = N
      ∧ i ≤ i' ≤ length leg
      ∧ (m = 0 → i' = i)
      ∧ (∀ j cf, j < i' → leg !! j = Some cf →
           (serialNumber (cf_date cf) < serialNumber (D N))%Z)
      ∧ (0 < m → i' = length leg
                 ∨ ∃ cf, leg !! i' = Some cf
                     ∧ (serialNumber (D N) ≤ serialNumber (cf_date cf))%Z)
      ∧ (0 < m → check = true → ∀ j x y, i ≤ S j ≤ i' →
           leg !! j = Some x → leg !! S j = Some y →
           (serialNumber (cf_date x) ≤ serialNumber (cf_date y))%Z))
  ∨ (check = true
     ∧ for_each (λ t st, while_leg date_init check leg t (length leg - st.2) st.1 st.2)
         (seq t m) (result, i) = Raise AssertionError
     ∧ ∃ j x y, i ≤ S j ∧ leg !! j = Some x ∧ leg !! S j = Some y
         ∧ (serialNumber (cf_date y) < serialNumber (cf_date x))%Z
         ∧ ∀ k cf, k ≤ j → leg !! k = Some cf →
             (serialNumber (cf_date cf) < serialNumber (D N))%Z).
Proof.
  intros HD. revert t result i.
  assert (∀ k k', k ≤ k' → k' ≤ N → (serialNumber (D k) ≤ serialNumber (D k'))%Z)
    as Hmono.
  { intros k k' Hk Hk'. apply (date_monotone date_init k k'); [done|apply HD; lia|by apply HD]. }
  induction m as [|m IH]; intros t result i Htm Hlen Hi Hbefore.
  - left. exists result, i. simpl. split; [done|]. split; [done|]. split; [lia|].
    split; [done|]. assert (t = N) as -> by lia. split; [done|].
    split; [lia|]. lia.
  - simpl. pose proof (Hmono t (t + 1) ltac:(lia) ltac:(lia)) as Hab.
    pose proof (Hmono (t + 1) N ltac:(lia) ltac:(lia)) as HbN.
    destruct (while_leg_run check leg t (D t) (D (t + 1)) (length leg - i) result i)
      as [(result1 & i1 & -> & Hi1 & Hlen1 & Hpassed1 & Hexit1 & Hpairs1)
         |(Hcheck & -> & j & x & y & Hj & Hx & Hy & Hdesc & Hpassed)];
      [apply HD; lia|apply HD; lia|lia|done|done| |].
    2: { right. split; [done|]. split; [done|]. exists j, x, y.
         split; [done|]. split; [done|]. split; [done|]. split; [done|].
         intros k cf Hk Hcf. destruct (decide (k < i)) as [Hki|Hki].
         - specialize (Hbefore k cf Hki Hcf). pose proof (Hmono t N ltac:(lia) ltac:(lia)). lia.
         - specialize (Hpassed k cf ltac:(lia) Hcf). lia. }
    simpl.
    assert (∀ j cf, j < i1 → leg !! j = Some cf →
              (serialNumber (cf_date cf) < serialNumber (D (S t)))%Z) as Hbefore1.
    { rewrite <- Nat.add_1_r. intros j cf Hj Hcf. destruct (decide (j < i)) as [Hji|Hji].
      - specialize (Hbefore j cf Hji Hcf). lia.
      - apply (Hpassed1 j); [lia|done]. }
    destruct (IH (S t) result1 i1)
      as [(result' & i' & -> & Hlen' & Hi' & Hm0 & Hbefore' & Hexit' & Hpairs')
         |(Hcheck & -> & j & x & y & Hj & Hx & Hy & Hdesc & Hpassed)];
      [lia|lia|lia|done| |].
    2: { right. split; [done|]. split; [done|]. exists j, x, y.
         split; [lia|]. done. }
    left. exists result', i'. split; [done|]. split; [done|]. split; [lia|].
    split; [lia|]. split; [done|]. split.
    + intros _. destruct m as [|m].
      * rewrite (Hm0 eq_refl). assert (t + 1 = N) as <- by lia. done.
      * apply Hexit'. lia.
    + intros _ Hcheck j x y Hj Hx Hy. destruct (decide (S j ≤ i1)) as [Hle|Hgt].
      * apply (Hpairs1 Hcheck j); [lia|done|done].
      * destruct m as [|m]; [specialize (Hm0 eq_refl); lia|].
        apply (Hpairs' ltac:(lia) Hcheck j); [lia|done|done].
Qed.

(** A returning [step_size()] has read the boundaries up to its result. *)
Lemma step_size_boundaries (fuel N : nat) :
  step_size date_init date_end fuel = Return N →
  ∃ D : nat → Date, ∀ k, k ≤ N → boundary k = Return (D k).
Proof.
  unfold step_size. intros Hrun. apply bind_Return in Hrun as (e & _ & Hrun).
  apply step_size_loop_Return in Hrun as (_ & (dN & HdN & _) & _).
  exists (λ k, match boundary k with Return d => d | _ => dN end).
  intros k Hk. destruct (date_defined_before date_init k N dN HdN Hk) as [dk Hdk].
  by rewrite Hdk.
Qed.

(** The body of [cashflows] and [redemptions] on the leg [leg], for a
    calendar of [N] periods with boundaries [D 0 .. D N]: it returns a
    vector of length [N], or, with [check] and [N > 0], fails on a cash
    flow dated before its predecessor when all cash flows before that one
    are dated before [D N]; it returns when there is no such cash flow. *)
Lemma sweep_run (check : bool) (fuel : nat) (leg : list (CashFlow Date))
    (N : nat) (D : nat → Date) :
  step_size date_init date_end fuel = Return N →
  (∀ k, k ≤ N → boundary k = Return (D k)) →
  (∃ result,
      sweep date_init date_end check fuel (Return leg) = Return result
      ∧ length result = N
      ∧ (0 < N → check = true →
           ¬ ∃ j x y, leg !! j = Some x ∧ leg !! S j = Some y
               ∧ (serialNumber (cf_date y) < serialNumber (cf_date x))%Z
               ∧ ∀ k cf, k ≤ j → leg !! k = Some cf →
                   (serialNumber (cf_date cf) < serialNumber (D N))%Z))
  ∨ (check = true
     ∧ sweep date_init date_end check fuel (Return leg) = Raise AssertionError
     ∧ 0 < N
     ∧ ∃ j x y, leg !! j = Some x ∧ leg !! S j = Some y
         ∧ (serialNumber (cf_date y) < serialNumber (cf_date x))%Z
         ∧ ∀ k cf, k ≤ j → leg !! k = Some cf →
             (serialNumber (cf_date cf) < serialNumber (D N))%Z).
Proof.
  intros HN HD. unfold sweep, range. rewrite HN. simpl.
  destruct (for_periods_run check leg D N N 0 (replicate N 0%float) 0 HD)
    as [(result & i & -> & Hlen & Hi & _ & Hbefore & Hexit & Hpairs)
       |(Hcheck & Hrun & j & x & y & _ & Hx & Hy & Hdesc & Hpassed)];
    [done|by rewrite length_replicate|lia|intros; lia| |].
  - left. exists result. simpl. split; [done|]. split; [done|].
    intros HposN Hcheck (j & x & y & Hx & Hy & Hdesc & Hpassed).
    destruct (decide (S j ≤ i)) as [Hle|Hgt].
    + pose proof (Hpairs HposN Hcheck j x y ltac:(lia) Hx Hy). lia.
    + destruct (Hexit HposN) as [->|(cf & Hcf & Hge)].
      * apply lookup_lt_Some in Hy. lia.
      * specialize (Hpassed i cf ltac:(lia) Hcf). lia.
  - right. split; [done|]. split; [by rewrite Hrun|]. split.
    + destruct N as [|N]; [|lia]. simpl in Hrun. discriminate.
    + by exists j, x, y.
Qed.

End Sweep.

(** ** The content of each period *)

Section Buckets.

Context `{QuantLibLaws}.
Variable date_init : string.
Variable date_end : string.

Local Abbreviation boundary := (date_ date_init).

(** A run of the inner loop in period [t] changes entry [t] of the vector
    only: it adds to it, one after the other, the amounts dated in the
    period of the cash flows it passes. *)
Lemma while_leg_entry (check : bool) (leg : list (CashFlow Date)) (t : nat)
    (a b : Date) (n : nat) (result : list float) (i : nat)
    (result' : list float) (i' : nat) :
  boundary t = Return a → boundary (t + 1) = Return b →
  while_leg date_init check leg t n result i = Return (result', i') →
  i ≤ i'
  ∧ (∀ k, k ≠ t → result' !! k = result !! k)
  ∧ (∀ y, result !! t = Some y →
       result' !! t
       = Some (accumulate y (amounts_in a b (drop i (take i' leg))))).
Proof.
  intros Ha Hb. revert result i.
  assert (∀ i, drop i (take i leg) = []) as Hnil.
  { intros i. apply drop_ge. rewrite length_take. lia. }
  induction n as [|n IH]; intros result i; rewrite while_leg_eq;
    destruct (leg !! i) as [cf|] eqn:Hcf; try done.
  - intros [= <- <-]. split; [done|]. split; [done|]. intros y Hy.
    by rewrite Hnil.
  - intros Hrun. apply bind_Return in Hrun as ([] & _ & Hrun).
    rewrite Ha, Hb in Hrun. simpl in Hrun.
    assert (∀ i', i + 1 ≤ i' →
              amounts_in a b (drop i (take i' leg))
              = (if dated_in a b cf then [cf_amount cf] else [])
                ++ amounts_in a b (drop (i + 1) (take i' leg))) as Hstep.
    { intros k Hk. rewrite <- amounts_in_cons. f_equal.
      rewrite Nat.add_1_r. apply drop_S. by rewrite lookup_take_lt by lia. }
    unfold dated_in in Hstep.
    destruct (Date_le a (cf_date cf) && Date_lt (cf_date cf) b).
    + apply bind_Return in Hrun as (x & Hx & Hrun). apply item_Return in Hx.
      pose proof (lookup_lt_Some _ _ _ Hx) as Hlt.
      apply IH in Hrun as (Hle & Hother & Hentry). split; [lia|]. split.
      * intros k Hk. rewrite Hother by done. by apply list_lookup_insert_ne.
      * intros y Hy. assert (y = x) as -> by congruence.
        rewrite (Hentry (x + cf_amount cf)%float)
          by (by apply list_lookup_insert_eq).
        by rewrite (Hstep i' Hle).
    + destruct (Date_le b (cf_date cf)).
      * injection Hrun as <- <-. split; [done|]. split; [done|]. intros y Hy.
        by rewrite Hnil.
      * apply IH in Hrun as (Hle & Hother & Hentry). split; [lia|].
        split; [done|]. intros y Hy. rewrite (Hentry y Hy).
        by rewrite (Hstep i' Hle).
  - intros [= <- <-]. split; [done|]. split; [done|]. intros y Hy.
    by rewrite Hnil.
Qed.

(** Over a leg ordered by date, the periods from [t] on each receive, one
    after the other, the amounts of the cash flows dated in them; the other
    entries keep their values. *)
Lemma for_periods_buckets (check : bool) (leg : list (CashFlow Date)) (D : nat → Date)
    (N m t : nat) (result : list float) (i : nat) (result' : list float)
    (i' : nat) :
  (∀ k, k ≤ N → boundary k = Return (D k)) →
  date_ordered leg →
  t + m = N → length result = N → i ≤ length leg →
  (∀ j cf, j < i → leg !! j = Some cf →
     (serialNumber (cf_date cf) < serialNumber (D t))%Z) →
  for_each (λ t st, while_leg date_init check leg t (length leg - st.2) st.1 st.2)
    (seq t m) (result, i) = Return (result', i') →
  (∀ k, ¬ (t ≤ k < t + m) → result' !! k = result !! k)
  ∧ (∀ k y, t ≤ k < t + m → result !! k = Some y →
       result' !! k = Some (accumulate y (amounts_in (D k) (D (S k)) leg))).
Proof.
  intros HD Hord. revert t result i.
  induction m as [|m IH]; intros t result i Htm Hlen Hi Hbefore Hrun.
  - simpl in Hrun. injection Hrun as <- <-. split; [done|]. intros; lia.
  - simpl in Hrun. apply bind_Return in Hrun as ([result1 i1] & Hrun1 & Hrun).
    simpl in Hrun1.
    assert (boundary t = Return (D t)) as Ha by (apply HD; lia).
    assert (boundary (t + 1) = Return (D (t + 1))) as Hb by (apply HD; lia).
    destruct (while_leg_run date_init check leg t (D t) (D (t + 1)) (length leg - i)
                result i Ha Hb)
      as [(r & p & Hrun1' & Hi1 & Hlen1 & Hpassed1 & Hexit1 & _)
         |(_ & Hraise & _)]; [lia|done|done| |congruence].
    assert (r = result1 ∧ p = i1) as [-> ->] by (split; congruence).
    destruct (while_leg_entry check leg t (D t) (D (t + 1)) _ result i result1 i1
                Ha Hb Hrun1) as (_ & Hother1 & Hentry1).
    rewrite Nat.add_1_r in *.
    assert (∀ j cf, j < i1 → leg !! j = Some cf →
              (serialNumber (cf_date cf) < serialNumber (D (S t)))%Z) as Hbefore1.
    { intros j cf Hj Hcf. destruct (decide (j < i)) as [Hji|Hji].
      - specialize (Hbefore j cf Hji Hcf).
        pose proof (date_monotone date_init t (S t) (D t) (D (S t)) ltac:(lia) Ha Hb).
        lia.
      - apply (Hpassed1 j); [lia|done]. }
    destruct (IH (S t) result1 i1) as [Hkeep Hrest]; [lia|lia|lia|done|done|].
    split.
    + intros k Hk. rewrite Hkeep by lia. apply Hother1. lia.
    + intros k y Hk Hy. destruct (decide (k = t)) as [->|Hne].
      * rewrite Hkeep by lia. rewrite (Hentry1 y Hy). do 2 f_equal.
        rewrite <- (take_drop i1 leg) at 2.
        rewrite <- (take_drop i (take i1 leg)) at 2.
        rewrite take_take, Nat.min_l by lia. rewrite !amounts_in_app.
        rewrite (amounts_in_outside (D t) (D (S t)) (take i leg)).
        2: { intros j cf Hj. apply lookup_take_Some in Hj as [Hj Hlt].
             apply dated_in_false. left. by apply (Hbefore j). }
        rewrite (amounts_in_outside (D t) (D (S t)) (drop i1 leg)).
        2: { intros j cf Hj. rewrite lookup_drop in Hj.
             apply dated_in_false. right.
             destruct Hexit1 as [->|(cf1 & Hcf1 & Hge)].
             - apply lookup_lt_Some in Hj. lia.
             - pose proof (date_ordered_le leg i1 (i1 + j) cf1 cf Hord ltac:(lia)
                             Hcf1 Hj). lia. }
        by rewrite app_nil_r.
      * apply Hrest; [lia|]. rewrite Hother1 by done. done.
Qed.

(** The body of [cashflows] and [redemptions] over a leg ordered by date:
    it returns, and entry [t] of the vector is the sum, added up from [0]
    in the order of the leg, of the amounts dated in
    [[date_(t), date_(t+1))]. *)
Lemma sweep_buckets (check : bool) (fuel : nat) (leg : list (CashFlow Date))
    (N : nat) (D : nat → Date) :
  step_size date_init date_end fuel = Return N →
  (∀ k, k ≤ N → boundary k = Return (D k)) →
  date_ordered leg →
  ∃ result,
    sweep date_init date_end check fuel (Return leg) = Return result
    ∧ length result = N
    ∧ ∀ t, t < N →
        result !! t = Some (fsum (amounts_in (D t) (D (S t)) leg)).
Proof.
  intros HN HD Hord.
  destruct (sweep_run date_init date_end check fuel leg N D HN HD)
    as [(result & Hrun & Hlen & _)|(_ & _ & _ & j & x & y & Hx & Hy & Hdesc & _)].
  2: { specialize (Hord j x y Hx Hy). lia. }
  exists result. split; [done|]. split; [done|]. intros t Ht.
  unfold sweep, range in Hrun. rewrite HN in Hrun. simpl in Hrun.
  apply bind_Return in Hrun as ([r p] & Hrun & [= <-]).
  destruct (for_periods_buckets check leg D N N 0 (replicate N 0%float) 0 r p HD Hord)
    as [_ Hbuckets]; [done|by rewrite length_replicate|lia|intros; lia|done|].
  apply Hbuckets; [lia|by apply lookup_replicate_2].
Qed.

(** The vector of a sweep over a leg ordered by date: the sums of the
    periods' amounts. *)
Lemma sweep_periods (check : bool) (fuel : nat) (leg : list (CashFlow Date))
    (N : nat) (D : nat → Date) :
  step_size date_init date_end fuel = Return N →
  (∀ k, k ≤ N → boundary k = Return (D k)) →
  date_ordered leg →
  sweep date_init date_end check fuel (Return leg)
  = Return (fsum <$> ((λ k, amounts_in (D k) (D (S k)) leg) <$> seq 0 N)).
Proof.
  intros HN HD Hord.
  destruct (sweep_buckets check fuel leg N D HN HD Hord)
    as (result & -> & Hlen & Hbuckets).
  f_equal. apply list_eq. intros t. rewrite !list_lookup_fmap.
  destruct (decide (t < N)) as [Ht|Ht].
  - rewrite (Hbuckets t Ht), lookup_seq_lt by done. done.
  - rewrite lookup_seq_ge by lia. simpl. apply lookup_ge_None. lia.
Qed.

End Buckets.

(** ** The cells over a bond *)

Section Cells.

Context `{QuantLibLaws}.
Variable date_init : string.
Variable date_end : string.
Variable bond_data : list (Z * BondRecord).
Variable zero_curve : list (string * float).

Local Abbreviation boundary := (date_ date_init).
Local Abbreviation bond_of := (fixed_rate_bond date_init bond_data zero_curve).

Lemma cashflows_of_bond (fuel : nat) (bond_id : Z) (bond : FixedRateBond) :
  bond_of bond_id = Return bond →
  cashflows date_init date_end bond_data zero_curve fuel bond_id
  = sweep date_init date_end true fuel (Return (bond_cashflows bond)).
Proof. intros Hbond. unfold cashflows. by rewrite Hbond. Qed.

Lemma redemptions_of_bond (fuel : nat) (bond_id : Z) (bond : FixedRateBond) :
  bond_of bond_id = Return bond →
  redemptions date_init date_end bond_data zero_curve fuel bond_id
  = sweep date_init date_end false fuel (Return (bond_redemptions bond)).
Proof. intros Hbond. unfold redemptions. by rewrite Hbond. Qed.

(** A sweep that returns has read a leg. *)
Lemma sweep_Return_leg (check : bool) (fuel : nat)
    (get_leg : outcome (list (CashFlow Date))) (result : list float) :
  sweep date_init date_end check fuel get_leg = Return result →
  ∃ N leg, step_size date_init date_end fuel = Return N ∧ get_leg = Return leg.
Proof.
  unfold sweep. intros Hrun. apply bind_Return in Hrun as (N & HN & Hrun).
  apply bind_Return in Hrun as (leg & Hleg & _). by exists N, leg.
Qed.

(** The vector of a sweep has one entry for each period. *)
Lemma sweep_length (check : bool) (fuel : nat)
    (get_leg : outcome (list (CashFlow Date))) (result : list float)
    (N : nat) :
  step_size date_init date_end fuel = Return N →
  sweep date_init date_end check fuel get_leg = Return result →
  length result = N.
Proof.
  intros HN Hrun.
  destruct (sweep_Return_leg _ _ _ _ Hrun) as (N' & leg & _ & ->).
  destruct (step_size_boundaries _ _ _ _ HN) as [D HD].
  destruct (sweep_run date_init date_end check fuel leg N D HN HD)
    as [(result' & Hrun' & Hlen & _)|(_ & Hrun' & _)]; congruence.
Qed.

(** C1: for a calendar of [N] periods and a bond whose cash flows are
    ordered by date, [cashflows] returns a vector of [N] amounts.  The
    amounts of the cash flows dated in [[date_(0), date_(N))] are split, in
    the order of the leg, into [N] groups, group [t] being the amounts
    dated in [[date_(t), date_(t+1))], and entry [t] of the vector is the
    sum of group [t], added up from [0] in that order; the amounts of the
    cash flows dated before [date_(0)] or on or after [date_(N)] are in no
    group. *)
Theorem cashflows_partition (fuel N : nat) (bond_id : Z) (bond : FixedRateBond)
    (d0 dN : Date) :
  step_size date_init date_end fuel = Return N →
  boundary 0 = Return d0 →
  boundary N = Return dN →
  bond_of bond_id = Return bond →
  date_ordered (bond_cashflows bond) →
  ∃ periods : list (list float),
    cashflows date_init date_end bond_data zero_curve fuel bond_id
    = Return (fsum <$> periods)
    ∧ length periods = N
    ∧ (∀ t a b, t < N → boundary t = Return a → boundary (S t) = Return b →
         periods !! t = Some (amounts_in a b (bond_cashflows bond)))
    ∧ concat periods = amounts_in d0 dN (bond_cashflows bond).
Proof.
  intros HN Hd0 HdN Hbond Hord. rewrite (cashflows_of_bond _ _ _ Hbond).
  destruct (step_size_boundaries _ _ _ _ HN) as [D HD].
  assert (D 0 = d0) as <- by (specialize (HD 0 ltac:(lia)); congruence).
  assert (D N = dN) as <- by (specialize (HD N ltac:(lia)); congruence).
  exists ((λ k, amounts_in (D k) (D (S k)) (bond_cashflows bond)) <$> seq 0 N).
  split; [by apply sweep_periods|].
  split; [by rewrite length_fmap, length_seq|]. split.
  - intros t a b Ht Ha Hb.
    assert (D t = a) as <- by (specialize (HD t ltac:(lia)); congruence).
    assert (D (S t) = b) as <- by (specialize (HD (S t) ltac:(lia)); congruence).
    by rewrite list_lookup_fmap, lookup_seq_lt.
  - apply (amounts_in_periods D (bond_cashflows bond) 0 N Hord).
    intros k k' _ Hk Hk'.
    apply (date_monotone date_init k k'); [done|apply HD; lia|by apply HD].
Qed.

(** X16: the reach of the assertion of [cashflows]: for a calendar of [N]
    periods the cell raises [AssertionError] exactly when [N > 0] and some
    cash flow is dated before its predecessor while every cash flow before
    it is dated before [date_(N)]; otherwise it returns a vector, so that
    the assertion misses a cash flow dated before its predecessor behind
    one dated on or after [date_(N)]. *)
Theorem cashflows_assertion_reach (fuel N : nat) (bond_id : Z)
    (bond : FixedRateBond) (dN : Date) :
  step_size date_init date_end fuel = Return N →
  boundary N = Return dN →
  bond_of bond_id = Return bond →
  (cashflows date_init date_end bond_data zero_curve fuel bond_id
     = Raise AssertionError
   ↔ 0 < N
     ∧ ∃ j x y,
         bond_cashflows bond !! j = Some x ∧ bond_cashflows bond !! S j = Some y
         ∧ (serialNumber (cf_date y) < serialNumber (cf_date x))%Z
         ∧ ∀ k cf, k ≤ j → bond_cashflows bond !! k = Some cf →
             (serialNumber (cf_date cf) < serialNumber dN)%Z)
  ∧ (cashflows date_init date_end bond_data zero_curve fuel bond_id
       = Raise AssertionError
     ∨ ∃ result,
         cashflows date_init date_end bond_data zero_curve fuel bond_id
         = Return result).
Proof.
  intros HN HdN Hbond. rewrite (cashflows_of_bond _ _ _ Hbond).
  destruct (step_size_boundaries _ _ _ _ HN) as [D HD].
  assert (D N = dN) as <- by (specialize (HD N ltac:(lia)); congruence).
  destruct (sweep_run date_init date_end true fuel (bond_cashflows bond) N D HN HD)
    as [(result & -> & Hlen & Hnone)|(_ & -> & HposN & Hpair)].
  - split; [|right; by exists result]. split; [done|].
    intros [HposN Hpair]. by destruct (Hnone HposN eq_refl).
  - split; [|by left]. split; [done|done].
Qed.

(** C6: when the end date is the valuation date, [step_size()] returns 0
    and [cashflows] and [redemptions] return the empty vector for every
    bond, whatever its cash flows. *)
Theorem degenerate_calendar (d0 e : Date) (fuel : nat) :
  Date_of_string date_init = Some d0 →
  Date_of_string date_end = Some e →
  serialNumber e = serialNumber d0 →
  0 < fuel →
  step_size date_init date_end fuel = Return 0
  ∧ ∀ bond_id bond, bond_of bond_id = Return bond →
      cashflows date_init date_end bond_data zero_curve fuel bond_id = Return []
      ∧ redemptions date_init date_end bond_data zero_curve fuel bond_id = Return [].
Proof.
  intros Hinit Hend Heq Hfuel.
  assert (step_size date_init date_end fuel = Return 0) as HN.
  { unfold step_size. rewrite Hend. simpl. destruct fuel as [|fuel]; [lia|].
    simpl. rewrite Hinit. simpl. unfold Date_lt.
    destruct (Z.ltb_spec (serialNumber d0) (serialNumber e)); [lia|done]. }
  split; [done|]. intros bond_id bond Hbond.
  rewrite (cashflows_of_bond _ _ _ Hbond), (redemptions_of_bond _ _ _ Hbond).
  unfold sweep. rewrite HN. done.
Qed.

End Cells.

(** ** The portfolio *)

Lemma mapM_Return {A B : Type} (f : A → outcome B) (xs : list A) (ys : list B) :
  mapM f xs = Return ys ↔ Forall2 (λ x y, f x = Return y) xs ys.
Proof.
  revert ys. induction xs as [|x xs IH]; intros ys; simpl.
  - split.
    + intros [= <-]. constructor.
    + intros Hall. by inversion Hall.
  - rewrite bind_Return. split.
    + intros (y & Hy & Hrest). apply bind_Return in Hrest as (ys' & Hys' & [= <-]).
      constructor; [done|]. by apply IH.
    + intros Hall. inversion Hall as [|? y ? ys' Hy Hys']; subst.
      exists y. split; [done|]. apply bind_Return. exists ys'. split; [|done].
      by apply IH.
Qed.

Section Portfolio.

Context `{QuantLib}.
Variable date_init : string.
Variable date_end : string.
Variable bond_data : list (Z * BondRecord).
Variable zero_curve : list (string * float).

Local Abbreviation bond_of := (fixed_rate_bond date_init bond_data zero_curve).

(** The [for i in bond_data.index] loop of a total in period [t]: the
    entries [t] of the bonds' vectors are added to entry [t], one after the
    other in the order of the index. *)
Lemma for_bonds_run (cell : Z → outcome (list float)) (vec : Z → list float)
    (ids : list Z) (t : nat) (result : list float) :
  (∀ i, i ∈ ids → cell i = Return (vec i) ∧ t < length (vec i)) →
  t < length result →
  ∃ result',
    for_each (λ i result,
        y ← item result t; v ← cell i; x ← item v t;
        Return (<[t := (y + x)%float]> result)) ids result = Return result'
    ∧ length result' = length result
    ∧ (∀ k, k ≠ t → result' !! k = result !! k)
    ∧ (∀ y, result !! t = Some y →
         result' !! t = Some (accumulate y (column vec ids t))).
Proof.
  revert result. induction ids as [|i ids IH]; intros result Hcell Ht.
  - exists result. simpl. split; [done|]. split; [done|]. split; [done|]. done.
  - destruct (lookup_lt_is_Some_2 result t Ht) as [y Hy].
    destruct (Hcell i) as [Hi Hlen]; [left|].
    destruct (lookup_lt_is_Some_2 (vec i) t Hlen) as [x Hx].
    simpl. rewrite (proj2 (item_Return result t y) Hy). simpl.
    rewrite Hi. simpl. rewrite (proj2 (item_Return (vec i) t x) Hx). simpl.
    destruct (IH (<[t := (y + x)%float]> result))
      as (result' & -> & Hlen' & Hother & Hentry).
    { intros i' Hi'. apply Hcell. by right. }
    { by rewrite length_insert. }
    exists result'. split; [done|]. split; [by rewrite Hlen', length_insert|].
    split.
    + intros k Hk. rewrite Hother by done. by apply list_lookup_insert_ne.
    + intros y0 Hy0. assert (y0 = y) as -> by congruence.
      rewrite (Hentry (y + x)%float) by (by apply list_lookup_insert_eq).
      unfold column. simpl. by rewrite Hx.
Qed.

(** The [for t in range(N)] loop of a total from period [t0] on. *)
Lemma for_periods_total (cell : Z → outcome (list float)) (vec : Z → list float)
    (ids : list Z) (N m t0 : nat) (result : list float) :
  (∀ i, i ∈ ids → cell i = Return (vec i) ∧ length (vec i) = N) →
  length result = N → t0 + m ≤ N →
  ∃ result',
    for_each (λ t result,
        for_each (λ i result,
            y ← item result t; v ← cell i; x ← item v t;
            Return (<[t := (y + x)%float]> result)) ids result)
      (seq t0 m) result = Return result'
    ∧ length result' = N
    ∧ (∀ k, k < t0 → result' !! k = result !! k)
    ∧ (∀ k y, t0 ≤ k < t0 + m → result !! k = Some y →
         result' !! k = Some (accumulate y (column vec ids k))).
Proof.
  intros Hcell. revert t0 result. induction m as [|m IH]; intros t0 result Hlen Hm.
  - exists result. simpl. split; [done|]. split; [done|]. split; [done|]. intros; lia.
  - simpl.
    destruct (for_bonds_run cell vec ids t0 result)
      as (result1 & -> & Hlen1 & Hother1 & Hentry1).
    { intros i Hi. destruct (Hcell i Hi) as [-> Hl]. split; [done|lia]. }
    { lia. }
    simpl. destruct (IH (S t0) result1) as (result' & -> & Hlen' & Hkeep & Hsum);
      [lia|lia|].
    exists result'. split; [done|]. split; [done|]. split.
    + intros k Hk. rewrite Hkeep by lia. apply Hother1. lia.
    + intros k y Hk Hy. destruct (decide (k = t0)) as [->|Hne].
      * rewrite Hkeep by lia. by apply Hentry1.
      * apply Hsum; [lia|]. rewrite Hother1 by done. done.
Qed.

(** A total over bonds whose vectors exist: it has [N] entries, and entry
    [t] is the sum of the bonds' entries [t], added up from [0] in the
    order of the index. *)
Lemma portfolio_total_sum (cell : Z → outcome (list float)) (vec : Z → list float)
    (fuel N : nat) :
  step_size date_init date_end fuel = Return N →
  (∀ i, i ∈ bond_data_index bond_data → cell i = Return (vec i) ∧ length (vec i) = N) →
  ∃ total,
    portfolio_total date_init date_end bond_data cell fuel = Return total
    ∧ length total = N
    ∧ ∀ t, t < N →
        total !! t = Some (fsum (column vec (bond_data_index bond_data) t)).
Proof.
  intros HN Hcell. unfold portfolio_total, range. rewrite HN. simpl.
  destruct (for_periods_total cell vec (bond_data_index bond_data) N N 0
              (replicate N 0%float) Hcell)
    as (total & -> & Hlen & _ & Hsum); [by rewrite length_replicate|lia|].
  exists total. split; [done|]. split; [done|]. intros t Ht.
  apply Hsum; [lia|by apply lookup_replicate_2].
Qed.

(** A total over an empty table is the vector of zeros it starts from. *)
Lemma portfolio_total_empty (cell : Z → outcome (list float)) (fuel N : nat) :
  step_size date_init date_end fuel = Return N →
  bond_data = [] →
  portfolio_total date_init date_end bond_data cell fuel
  = Return (replicate N 0%float).
Proof.
  intros HN ->. unfold portfolio_total, bond_data_index, range. rewrite HN. simpl.
  generalize (replicate N 0%float) as result. generalize 0 as t0. clear HN.
  induction N as [|N IH]; intros t0 result; simpl; [done|]. apply IH.
Qed.

End Portfolio.

Section Totals.

Context `{QuantLibLaws}.
Variable date_init : string.
Variable date_end : string.
Variable bond_data : list (Z * BondRecord).
Variable zero_curve : list (string * float).

(** C4: when every bond of the table has its vector, [cashflows_total]
    (and likewise [redemptions_total]) returns the vector of [N] entries
    whose entry [t] is the sum of the entries [t] of the bonds' vectors,
    added up from [0] one bond after the other in the order of the table;
    for an empty table it returns [N] zeros. *)
Theorem totals_elementwise_sum (fuel N : nat) (cf_vec red_vec : Z → list float) :
  step_size date_init date_end fuel = Return N →
  (∀ i, i ∈ bond_data_index bond_data →
     cashflows date_init date_end bond_data zero_curve fuel i = Return (cf_vec i)) →
  (∀ i, i ∈ bond_data_index bond_data →
     redemptions date_init date_end bond_data zero_curve fuel i = Return (red_vec i)) →
  (∃ total,
      cashflows_total date_init date_end bond_data zero_curve fuel = Return total
      ∧ length total = N
      ∧ ∀ t, t < N →
          total !! t = Some (fsum (column cf_vec (bond_data_index bond_data) t)))
  ∧ (∃ total,
      redemptions_total date_init date_end bond_data zero_curve fuel = Return total
      ∧ length total = N
      ∧ ∀ t, t < N →
          total !! t = Some (fsum (column red_vec (bond_data_index bond_data) t)))
  ∧ (bond_data = [] →
      cashflows_total date_init date_end bond_data zero_curve fuel
        = Return (replicate N 0%float)
      ∧ redemptions_total date_init date_end bond_data zero_curve fuel
        = Return (replicate N 0%float)).
Proof.
  intros HN Hcf Hred. split; [|split].
  - apply portfolio_total_sum; [done|]. intros i Hi. split; [by apply Hcf|].
    eapply sweep_length; [done|]. apply (Hcf i Hi).
  - apply portfolio_total_sum; [done|]. intros i Hi. split; [by apply Hred|].
    eapply sweep_length; [done|]. apply (Hred i Hi).
  - intros Hempty. split; by apply portfolio_total_empty.
Qed.

End Totals.

Section Bond_terms.

Context `{QuantLib}.
Variable date_init : string.
Variable bond_data : list (Z * BondRecord).
Variable zero_curve : list (string * float).

Local Abbreviation bond_of := (fixed_rate_bond date_init bond_data zero_curve).

(** C8: [market_values()] returns a list exactly when every bond of the
    table is built, and then the list has one entry for each row of the
    table, in the order of the table, the entry of a bond being
    [notional * cleanPrice / 100]. *)
Theorem market_values_per_bond (mv : list float) :
  (market_values date_init bond_data zero_curve = Return mv
   ↔ Forall2 (λ i x, ∃ b, bond_of i = Return b
                 ∧ x = (bond_notional b * bond_cleanPrice b / 100)%float)
       (bond_data_index bond_data) mv)
  ∧ (market_values date_init bond_data zero_curve = Return mv →
       length mv = length bond_data
       ∧ ∀ k i, bond_data_index bond_data !! k = Some i →
           ∃ b, bond_of i = Return b
             ∧ mv !! k = Some (bond_notional b * bond_cleanPrice b / 100)%float).
Proof.
  assert (market_values date_init bond_data zero_curve = Return mv
          ↔ Forall2 (λ i x, ∃ b, bond_of i = Return b
                        ∧ x = (bond_notional b * bond_cleanPrice b / 100)%float)
              (bond_data_index bond_data) mv) as Hiff.
  { unfold market_values. rewrite mapM_Return.
    split; intros Hall; eapply Forall2_impl; try exact Hall; intros i x.
    - intros Hx. apply bind_Return in Hx as (b & Hb & Hx). rewrite Hb in Hx.
      simpl in Hx. injection Hx as <-. by exists b.
    - intros (b & Hb & ->). rewrite Hb. done. }
  split; [done|]. intros Hmv. apply Hiff in Hmv.
  split.
  - apply Forall2_length in Hmv. unfold bond_data_index in Hmv.
    by rewrite length_fmap in Hmv.
  - intros k i Hi. destruct (Forall2_lookup_l _ _ _ _ _ Hmv Hi) as (x & Hx & b & Hb & ->).
    by exists b.
Qed.

(** C9: the schedule of a bond is semiannual exactly when the tenor of its
    row is the string ["6Y"]; for every other tenor, ["6M"] among them, it
    is annual. *)
Theorem schedule_tenor (bond_id : Z) (r : BondRecord) (s : Schedule Date) :
  loc bond_data bond_id = Return r →
  schedule bond_data bond_id = Return s →
  (sch_tenor s = Semiannual ↔ tenor r = "6Y"%string)
  ∧ (tenor r ≠ "6Y"%string → sch_tenor s = Annual)
  ∧ (tenor r = "6M"%string → sch_tenor s = Annual).
Proof.
  intros Hr Hs. unfold schedule in Hs. rewrite Hr in Hs. simpl in Hs.
  apply bind_Return in Hs as (issue & _ & Hs).
  apply bind_Return in Hs as (maturity & _ & Hs).
  destruct (ql_Schedule_accepts issue maturity _); [|done].
  injection Hs as <-. simpl.
  destruct (String.eqb_spec (tenor r) "6Y") as [Heq|Hne].
  - split; [done|]. split; [done|]. rewrite Heq. discriminate.
  - split; [split; [discriminate|done]|]. done.
Qed.

End Bond_terms.

(** ** The date library [QL] *)

Module QL_facts.

Lemma yearOffset_step (y : Z) :
  (364 ≤ QL.yearOffset (y + 1) - QL.yearOffset y ≤ 367)%Z.
Proof. unfold QL.yearOffset. Z.to_euclidean_division_equations. lia. Qed.

Lemma monthOffset_leap (m : Z) (l l' : bool) :
  (-1 ≤ QL.monthOffset m l' - QL.monthOffset m l ≤ 1)%Z.
Proof.
  unfold QL.monthOffset. destruct l, l'; simpl; destruct (2 <? m)%Z; lia.
Qed.

(** A date plus one year is at least 362 days later. *)
Lemma plus_1Y_later (d d' : QL.Date) :
  QL.plus_1Y d = Some d' → (QL.serialNumber d + 362 ≤ QL.serialNumber d')%Z.
Proof.
  unfold QL.plus_1Y, QL.advance_years, QL.serialNumber.
  destruct (QL.year_in_range (QL.year d + 1)); [|done].
  pose proof (yearOffset_step (QL.year d)).
  pose proof (monthOffset_leap (QL.month d) (QL.isLeap (QL.year d))
                (QL.isLeap (QL.year d + 1))).
  destruct ((QL.dayOfMonth d =? 29)%Z && (QL.month d =? 2)%Z
            && negb (QL.isLeap (QL.year d + 1))) eqn:Hfeb;
    intros [= <-]; simpl.
  - apply andb_prop in Hfeb as [Hfeb _]. apply andb_prop in Hfeb as [Hday _]. lia.
  - lia.
Qed.

(** A year has 365 days, and one more when it is leap. *)
Lemma yearOffset_S (y : Z) :
  QL.yearOffset (y + 1)
  = (QL.yearOffset y + 365 + if QL.isLeap y then 1 else 0)%Z.
Proof.
  unfold QL.yearOffset, QL.isLeap.
  destruct (Z.eqb_spec (y mod 4) 0); destruct (Z.eqb_spec (y mod 100) 0);
    destruct (Z.eqb_spec (y mod 400) 0); simpl;
    Z.to_euclidean_division_equations; lia.
Qed.

Lemma yearOffset_monotone (y y' : Z) :
  (y ≤ y')%Z → (QL.yearOffset y ≤ QL.yearOffset y')%Z.
Proof. unfold QL.yearOffset. Z.to_euclidean_division_equations. lia. Qed.

(** The serial number of a valid date lies in its year. *)
Lemma serialNumber_in_year (d : QL.Date) :
  QL.valid d →
  (QL.yearOffset (QL.year d) < QL.serialNumber d ≤ QL.yearOffset (QL.year d + 1))%Z.
Proof.
  intros (_ & Hm & Hd). rewrite yearOffset_S. unfold QL.serialNumber.
  revert Hd. unfold QL.monthLength, QL.monthOffset.
  destruct (QL.isLeap (QL.year d));
    assert (QL.month d = 1 ∨ QL.month d = 2 ∨ QL.month d = 3 ∨ QL.month d = 4
            ∨ QL.month d = 5 ∨ QL.month d = 6 ∨ QL.month d = 7 ∨ QL.month d = 8
            ∨ QL.month d = 9 ∨ QL.month d = 10 ∨ QL.month d = 11
            ∨ QL.month d = 12)%Z as Hcases by lia;
    repeat (destruct Hcases as [->|Hcases]); try rewrite Hcases; simpl; lia.
Qed.

Lemma Date_of_dmy_valid (d m y : Z) (date : QL.Date) :
  QL.Date_of_dmy d m y = Some date → QL.valid date.
Proof.
  unfold QL.Date_of_dmy, QL.valid.
  destruct (QL.year_in_range y) eqn:Hy; [|done]. simpl.
  destruct ((1 <=? m)%Z && (m <=? 12)%Z) eqn:Hm; [|done]. simpl.
  destruct ((1 <=? d)%Z && (d <=? QL.monthLength m (QL.isLeap y))%Z) eqn:Hd; [|done].
  intros [= <-]. simpl. split; [done|]. lia.
Qed.

Lemma Date_of_string_valid (s : string) (date : QL.Date) :
  QL.Date_of_string s = Some date → QL.valid date.
Proof.
  unfold QL.Date_of_string.
  destruct (list_ascii_of_string s) as [|y1 [|y2 [|y3 [|y4 [|s1 [|m1 [|m2 [|s2
    [|d1 [|d2 [|]]]]]]]]]]]; try done.
  destruct (Ascii.eqb s1 "-" && Ascii.eqb s2 "-"); [|done].
  destruct (QL.number_from 0 [y1; y2; y3; y4]) as [y|]; [|done].
  destruct (QL.number_from 0 [m1; m2]) as [m|]; [|done].
  destruct (QL.number_from 0 [d1; d2]) as [d|]; [|done].
  apply Date_of_dmy_valid.
Qed.

Lemma plus_1Y_valid (d d' : QL.Date) :
  QL.valid d → QL.plus_1Y d = Some d' → QL.valid d'.
Proof.
  intros (_ & Hm & Hd). unfold QL.plus_1Y, QL.advance_years, QL.valid.
  destruct (QL.year_in_range (QL.year d + 1)) eqn:Hy; [|done].
  destruct ((QL.dayOfMonth d =? 29)%Z && (QL.month d =? 2)%Z
            && negb (QL.isLeap (QL.year d + 1))) eqn:Hfeb;
    intros [= <-]; simpl; (split; [done|]); (split; [done|]).
  - apply andb_prop in Hfeb as [Hfeb Hleap]. apply andb_prop in Hfeb as [_ Hmonth].
    apply Z.eqb_eq in Hmonth. rewrite Hmonth. simpl.
    destruct (QL.isLeap (QL.year d + 1)); lia.
  - revert Hd. unfold QL.monthLength.
    assert (QL.month d = 2 ∨ QL.month d ≠ 2)%Z as [Hfebr|Hother] by lia.
    + rewrite Hfebr in *. simpl in *.
      destruct (QL.isLeap (QL.year d)), (QL.isLeap (QL.year d + 1)); simpl in *;
        lia.
    + assert (QL.month d = 1 ∨ QL.month d = 3 ∨ QL.month d = 4
              ∨ QL.month d = 5 ∨ QL.month d = 6 ∨ QL.month d = 7 ∨ QL.month d = 8
              ∨ QL.month d = 9 ∨ QL.month d = 10 ∨ QL.month d = 11
              ∨ QL.month d = 12)%Z as Hcases by lia.
      repeat (destruct Hcases as [->|Hcases]); try rewrite Hcases; done.
Qed.

(** Adding a year keeps the month and the day, but for 29 February, and
    moves the year on by one. *)
Lemma plus_1Y_same_day (d d' : QL.Date) :
  QL.plus_1Y d = Some d' →
  QL.year d' = (QL.year d + 1)%Z ∧ QL.month d' = QL.month d
  ∧ (QL.dayOfMonth d' = QL.dayOfMonth d
     ∨ QL.month d = 2%Z ∧ QL.dayOfMonth d = 29%Z ∧ QL.dayOfMonth d' = 28%Z).
Proof.
  unfold QL.plus_1Y, QL.advance_years.
  destruct (QL.year_in_range (QL.year d + 1)); [|done].
  destruct ((QL.dayOfMonth d =? 29)%Z && (QL.month d =? 2)%Z
            && negb (QL.isLeap (QL.year d + 1))) eqn:Hfeb;
    intros [= <-]; simpl; [|by auto].
  apply andb_prop in Hfeb as [Hfeb _]. apply andb_prop in Hfeb as [Hday Hmonth].
  split; [done|]. split; [done|]. right. lia.
Qed.

End QL_facts.

#[global] Instance QuantLib_QL_laws (mk : QL.bond_constructor) :
  @QuantLibLaws (QuantLib_QL mk).
Proof.
  constructor. intros d d' Hplus. apply QL_facts.plus_1Y_later in Hplus.
  simpl. lia.
Qed.

(** The boundaries over [QL] are valid dates. *)
Lemma QL_boundary_valid (mk : QL.bond_constructor) (date_init : string)
    (k : nat) (dk : QL.Date) :
  date_ (H := QuantLib_QL mk) date_init k = Return dk → QL.valid dk.
Proof.
  revert dk. induction k as [|k IH]; intros dk Hk.
  - simpl in Hk. apply ql_Return in Hk. by apply QL_facts.Date_of_string_valid in Hk.
  - apply (date_S_Return (H := QuantLib_QL mk)) in Hk as (d & Hd & Hplus).
    eapply QL_facts.plus_1Y_valid; [by apply IH|done].
Qed.

(** [QL] adds a year to every boundary before an end date of a year up to
    2198. *)
Lemma QL_advances (mk : QL.bond_constructor) (date_init : string) (e : QL.Date) :
  QL.valid e → (QL.year e ≤ 2198)%Z →
  ∀ k dk, date_ (H := QuantLib_QL mk) date_init k = Return dk →
    (QL.serialNumber dk < QL.serialNumber e)%Z → is_Some (QL.plus_1Y dk).
Proof.
  intros He Hyear k dk Hk Hlt. apply QL_boundary_valid in Hk.
  pose proof (QL_facts.serialNumber_in_year dk Hk) as Hdk.
  pose proof (QL_facts.serialNumber_in_year e He) as Hee.
  assert (QL.year dk ≤ QL.year e)%Z as Hle.
  { destruct (Z.le_gt_cases (QL.year dk) (QL.year e)) as [|Hgt]; [done|].
    pose proof (QL_facts.yearOffset_monotone (QL.year e + 1) (QL.year dk)). lia. }
  destruct Hk as (Hrange & _). unfold QL.year_in_range in Hrange.
  unfold QL.plus_1Y, QL.advance_years, QL.year_in_range.
  destruct ((1901 <=? QL.year dk + 1)%Z && (QL.year dk + 1 <=? 2199)%Z) eqn:Hin;
    [|lia].
  destruct ((QL.dayOfMonth dk =? 29)%Z && (QL.month dk =? 2)%Z
            && negb (QL.isLeap (QL.year dk + 1))); eauto.
Qed.

(** Over [QL], [step_size()] returns for valid dates with an end date of a
    year up to 2198. *)
Lemma QL_step_size_returns (mk : QL.bond_constructor) (date_init date_end : string)
    (d0 e : QL.Date) :
  QL.Date_of_string date_init = Some d0 →
  QL.Date_of_string date_end = Some e →
  (QL.year e ≤ 2198)%Z →
  ∃ N fuel0, ∀ fuel, fuel0 ≤ fuel →
    step_size (H := QuantLib_QL mk) date_init date_end fuel = Return N.
Proof.
  intros Hinit Hend Hyear.
  destruct (step_size_returns_reached (H := QuantLib_QL mk) date_init date_end
              d0 e Hinit Hend) as (N & fuel0 & dN & Hret & _).
  { apply QL_advances; [|done]. by eapply QL_facts.Date_of_string_valid. }
  by exists N, fuel0.
Qed.

(** In 2199 it need not: the boundary after 2199-06-01 is out of the
    library's range. *)
Example QL_step_size_at_limit (mk : QL.bond_constructor) (fuel : nat) :
  2 ≤ fuel →
  step_size (H := QuantLib_QL mk) "2199-06-01" "2199-12-31" fuel = Raise RuntimeError.
Proof.
  intros Hfuel.
  assert (step_size (H := QuantLib_QL mk) "2199-06-01" "2199-12-31" 2
          = Raise RuntimeError) as Hrun by (vm_compute; reflexivity).
  rewrite (step_size_fuel (H := QuantLib_QL mk) _ _ 2 fuel);
    [exact Hrun|by rewrite Hrun|exact Hfuel].
Qed.

(** With the references as shipped the calendar has 31 periods. *)
Example default_step_size (mk : QL.bond_constructor) (fuel : nat) :
  32 ≤ fuel →
  step_size (H := QuantLib_QL mk) default_date_init default_date_end fuel = Return 31.
Proof.
  intros Hfuel.
  assert (step_size (H := QuantLib_QL mk) default_date_init default_date_end 32
          = Return 31) as Hrun by (vm_compute; reflexivity).
  rewrite (step_size_fuel (H := QuantLib_QL mk) _ _ 32 fuel);
    [exact Hrun|by rewrite Hrun|exact Hfuel].
Qed.

(** ** The documented scenarios, on the library [QL] *)

(** C5: with valuation date 2022-01-01 and end date 2025-01-01 the
    boundaries are 2022-01-01, 2023-01-01, 2024-01-01 and 2025-01-01,
    [step_size()] is 3, and a bond whose only redemption is 1000 on
    2023-06-15 has the redemption vector [[0, 1000, 0]]. *)
Theorem boundary_scenario (mk : QL.bond_constructor)
    (bond_data : list (Z * BondRecord)) (zero_curve : list (string * float))
    (bond_id : Z) (bond : QL.FixedRateBond) (fuel : nat) :
  4 ≤ fuel →
  fixed_rate_bond (H := QuantLib_QL mk) "2022-01-01" bond_data zero_curve bond_id
    = Return bond →
  QL.bond_redemptions bond = [mkCashFlow (QL.mkDate 2023 6 15) 1000%float] →
  step_size (H := QuantLib_QL mk) "2022-01-01" "2025-01-01" fuel = Return 3
  ∧ date_ (H := QuantLib_QL mk) "2022-01-01" <$> [0; 1; 2; 3]
    = [Return (QL.mkDate 2022 1 1); Return (QL.mkDate 2023 1 1);
       Return (QL.mkDate 2024 1 1); Return (QL.mkDate 2025 1 1)]
  ∧ redemptions (H := QuantLib_QL mk) "2022-01-01" "2025-01-01" bond_data
      zero_curve fuel bond_id
    = Return [0%float; 1000%float; 0%float].
Proof.
  intros Hfuel Hbond Hleg.
  assert (step_size (H := QuantLib_QL mk) "2022-01-01" "2025-01-01" 4 = Return 3)
    as Hrun by (vm_compute; reflexivity).
  assert (step_size (H := QuantLib_QL mk) "2022-01-01" "2025-01-01" fuel = Return 3)
    as HN.
  { rewrite (step_size_fuel (H := QuantLib_QL mk) _ _ 4 fuel);
      [exact Hrun|by rewrite Hrun|exact Hfuel]. }
  split; [done|]. split; [done|].
  rewrite (redemptions_of_bond _ _ _ _ _ _ _ Hbond). unfold sweep. rewrite HN.
  simpl bond_redemptions. rewrite Hleg. reflexivity.
Qed.

Lemma boundary_scenario_witness :
  (4 ≤ 10
   ∧ fixed_rate_bond (H := QuantLib_QL Sample.bullet) "2022-01-01"
       Sample.bond_data Sample.zero_curve 1
     = Return {| QL.bond_cashflows :=
                   [mkCashFlow (QL.mkDate 2023 6 15) 62.5%float;
                    mkCashFlow (QL.mkDate 2023 6 15) 1000%float];
                 QL.bond_redemptions :=
                   [mkCashFlow (QL.mkDate 2023 6 15) 1000%float];
                 QL.bond_notional := 1000%float;
                 QL.bond_cleanPrice := 100%float |})
  ∧ redemptions (H := QuantLib_QL Sample.bullet) "2022-01-01" "2025-01-01"
      Sample.bond_data Sample.zero_curve 10 1
    = Return [0%float; 1000%float; 0%float].
Proof.
  split; [split; [lia|reflexivity]|].
  eapply (boundary_scenario Sample.bullet Sample.bond_data Sample.zero_curve 1 _ 10);
    [lia|reflexivity|reflexivity].
Defined.

(** *** The theorems at sample inputs *)

Lemma cashflows_partition_witness :
  (step_size (H := Sample.lib_ordered) "2022-01-01" "2025-01-01" 10 = Return 3
   ∧ date_ (H := Sample.lib_ordered) "2022-01-01" 0 = Return (QL.mkDate 2022 1 1)
   ∧ date_ (H := Sample.lib_ordered) "2022-01-01" 3 = Return (QL.mkDate 2025 1 1)
   ∧ fixed_rate_bond (H := Sample.lib_ordered) "2022-01-01" Sample.bond_data
       Sample.zero_curve 1 = Return (Sample.legs Sample.ordered_leg [])
   ∧ date_ordered (H := Sample.lib_ordered) Sample.ordered_leg)
  ∧ ∃ periods : list (list float),
      cashflows (H := Sample.lib_ordered) "2022-01-01" "2025-01-01"
        Sample.bond_data Sample.zero_curve 10 1 = Return (fsum <$> periods)
      ∧ length periods = 3
      ∧ (∀ t a b, t < 3 →
           date_ (H := Sample.lib_ordered) "2022-01-01" t = Return a →
           date_ (H := Sample.lib_ordered) "2022-01-01" (S t) = Return b →
           periods !! t
           = Some (amounts_in (H := Sample.lib_ordered) a b Sample.ordered_leg))
      ∧ concat periods
        = amounts_in (H := Sample.lib_ordered) (QL.mkDate 2022 1 1)
            (QL.mkDate 2025 1 1) Sample.ordered_leg.
Proof.
  assert (date_ordered (H := Sample.lib_ordered) Sample.ordered_leg) as Hord
    by (by apply dates_ordered_sound).
  split; [by repeat split|].
  exact (cashflows_partition (H := Sample.lib_ordered) (H0 := QuantLib_QL_laws _)
           "2022-01-01" "2025-01-01" Sample.bond_data Sample.zero_curve 10 3 1
           (Sample.legs Sample.ordered_leg []) (QL.mkDate 2022 1 1)
           (QL.mkDate 2025 1 1) eq_refl eq_refl eq_refl eq_refl Hord).
Defined.

(** The leg [(2022-03-01, 1e16), (2022-06-01, 1), (2023-03-01, 1),
    (2023-06-01, 1)] is ordered by date and all its cash flows are dated in
    [[2022-01-01, 2025-01-01)]; [cashflows] returns [[1e16, 2, 0]] for it,
    whose sum, [1e16 + 2], is not the sum of the four amounts: added up
    one after the other these give [1e16]. *)
Lemma cashflows_sum_rounded :
  date_ordered (H := Sample.lib_uneven) Sample.uneven_leg
  ∧ fixed_rate_bond (H := Sample.lib_uneven) "2022-01-01" Sample.bond_data
      Sample.zero_curve 1 = Return (Sample.legs Sample.uneven_leg [])
  ∧ step_size (H := Sample.lib_uneven) "2022-01-01" "2025-01-01" 10 = Return 3
  ∧ amounts_in (H := Sample.lib_uneven) (QL.mkDate 2022 1 1) (QL.mkDate 2025 1 1)
      Sample.uneven_leg
    = [10000000000000000; 1; 1; 1]%float
  ∧ cashflows (H := Sample.lib_uneven) "2022-01-01" "2025-01-01"
      Sample.bond_data Sample.zero_curve 10 1
    = Return [10000000000000000; 2; 0]%float
  ∧ fsum [10000000000000000; 2; 0]%float = 10000000000000002%float
  ∧ fsum [10000000000000000; 1; 1; 1]%float = 10000000000000000%float
  ∧ fsum [10000000000000000; 2; 0]%float
    ≠ fsum (amounts_in (H := Sample.lib_uneven) (QL.mkDate 2022 1 1)
              (QL.mkDate 2025 1 1) Sample.uneven_leg).
Proof.
  split; [by apply dates_ordered_sound|].
  split; [reflexivity|]. split; [reflexivity|]. split; [reflexivity|].
  split; [reflexivity|]. split; [reflexivity|]. split; [reflexivity|].
  intros Heq.
  apply (f_equal (λ x, PrimFloat.eqb x 10000000000000002)) in Heq.
  vm_compute in Heq. discriminate.
Qed.

Lemma cashflows_assertion_reach_witness :
  (step_size (H := Sample.lib_unordered) "2022-01-01" "2025-01-01" 10 = Return 3
   ∧ date_ (H := Sample.lib_unordered) "2022-01-01" 3 = Return (QL.mkDate 2025 1 1)
   ∧ fixed_rate_bond (H := Sample.lib_unordered) "2022-01-01" Sample.bond_data
       Sample.zero_curve 1
     = Return (Sample.legs Sample.unordered_leg Sample.unordered_leg))
  ∧ cashflows (H := Sample.lib_unordered) "2022-01-01" "2025-01-01"
      Sample.bond_data Sample.zero_curve 10 1 = Raise AssertionError.
Proof.
  split; [by repeat split|].
  apply (proj1 (cashflows_assertion_reach (H := Sample.lib_unordered)
                  (H0 := QuantLib_QL_laws _)
                  "2022-01-01" "2025-01-01" Sample.bond_data Sample.zero_curve 10 3 1
                  (Sample.legs Sample.unordered_leg Sample.unordered_leg)
                  (QL.mkDate 2025 1 1) eq_refl eq_refl eq_refl)).
  split; [lia|].
  exists 0, (Sample.on 2023 1 1 5), (Sample.on 2022 6 1 5).
  split; [done|]. split; [done|]. split; [done|].
  intros k cf Hk Hcf. assert (k = 0) as -> by lia. injection Hcf as <-. done.
Defined.

(** C2: the sequence [(2030-01-01, 5), (2023-06-01, 5)] is not ordered by
    date, yet over the calendar 2022-01-01 to 2025-01-01 [cashflows]
    raises no error for it: it returns [[0, 0, 0]], leaving out the amount
    dated 2023-06-01, which falls in the second period.  [redemptions]
    raises no error for [(2023-01-01, 5), (2022-06-01, 5)]: it returns
    [[0, 5, 0]], leaving out the amount dated 2022-06-01, which falls in the
    first period. *)
Theorem unordered_legs_returned :
  ¬ date_ordered (H := Sample.lib_late_unordered) Sample.late_unordered_leg
  ∧ fixed_rate_bond (H := Sample.lib_late_unordered) "2022-01-01"
      Sample.bond_data Sample.zero_curve 1
    = Return (Sample.legs Sample.late_unordered_leg [])
  ∧ cashflows (H := Sample.lib_late_unordered) "2022-01-01" "2025-01-01"
      Sample.bond_data Sample.zero_curve 10 1 = Return [0; 0; 0]%float
  ∧ dated_in (H := Sample.lib_late_unordered) (QL.mkDate 2023 1 1)
      (QL.mkDate 2024 1 1) (Sample.on 2023 6 1 5) = true
  ∧ ¬ date_ordered (H := Sample.lib_unordered) Sample.unordered_leg
  ∧ fixed_rate_bond (H := Sample.lib_unordered) "2022-01-01"
      Sample.bond_data Sample.zero_curve 1
    = Return (Sample.legs Sample.unordered_leg Sample.unordered_leg)
  ∧ redemptions (H := Sample.lib_unordered) "2022-01-01" "2025-01-01"
      Sample.bond_data Sample.zero_curve 10 1 = Return [0; 5; 0]%float
  ∧ dated_in (H := Sample.lib_unordered) (QL.mkDate 2022 1 1)
      (QL.mkDate 2023 1 1) (Sample.on 2022 6 1 5) = true.
Proof.
  split; [intros Hord; by apply dates_ordered_sound in Hord|].
  split; [reflexivity|]. split; [reflexivity|]. split; [reflexivity|].
  split; [intros Hord; by apply dates_ordered_sound in Hord|].
  split; [reflexivity|]. split; [reflexivity|]. reflexivity.
Qed.

Lemma step_size_smallest_boundary_witness :
  (Date_of_string (QuantLib := Sample.lib_bullet) "2022-01-01"
     = Some (QL.mkDate 2022 1 1)
   ∧ Date_of_string (QuantLib := Sample.lib_bullet) "2025-01-01"
     = Some (QL.mkDate 2025 1 1))
  ∧ ∃ fuel0,
      (∃ N : nat,
         (∀ fuel, fuel0 ≤ fuel →
            step_size (H := Sample.lib_bullet) "2022-01-01" "2025-01-01" fuel
            = Return N)
         ∧ (∃ dN, date_ (H := Sample.lib_bullet) "2022-01-01" N = Return dN
              ∧ (QL.serialNumber (QL.mkDate 2025 1 1) ≤ QL.serialNumber dN)%Z)
         ∧ (∀ k, k < N →
              ∃ dk, date_ (H := Sample.lib_bullet) "2022-01-01" k = Return dk
                ∧ (QL.serialNumber dk < QL.serialNumber (QL.mkDate 2025 1 1))%Z)
         ∧ (∀ M dM, date_ (H := Sample.lib_bullet) "2022-01-01" M = Return dM →
              (QL.serialNumber (QL.mkDate 2025 1 1) ≤ QL.serialNumber dM)%Z →
              N ≤ M)
         ∧ ((QL.serialNumber (QL.mkDate 2025 1 1)
             ≤ QL.serialNumber (QL.mkDate 2022 1 1))%Z → N = 0))
      ∨ ((∀ fuel, fuel0 ≤ fuel →
            step_size (H := Sample.lib_bullet) "2022-01-01" "2025-01-01" fuel
            = Raise RuntimeError)
         ∧ (∃ t dt, date_ (H := Sample.lib_bullet) "2022-01-01" t = Return dt
              ∧ (QL.serialNumber dt < QL.serialNumber (QL.mkDate 2025 1 1))%Z
              ∧ QL.plus_1Y dt = None)
         ∧ (∀ k dk, date_ (H := Sample.lib_bullet) "2022-01-01" k = Return dk →
              (QL.serialNumber dk < QL.serialNumber (QL.mkDate 2025 1 1))%Z)
         ∧ (QL.serialNumber (QL.mkDate 2022 1 1)
            < QL.serialNumber (QL.mkDate 2025 1 1))%Z).
Proof.
  split; [by split|].
  exact (step_size_smallest_boundary (H := Sample.lib_bullet)
           (H0 := QuantLib_QL_laws _) "2022-01-01" "2025-01-01"
           (QL.mkDate 2022 1 1) (QL.mkDate 2025 1 1) eq_refl eq_refl).
Defined.

(** The strings 2199-06-01 and 2199-12-31 are valid dates and the end
    date is after the valuation date, yet [step_size()] returns no number:
    the library adds no year to 2199-06-01, and the call raises
    [RuntimeError]. *)
Lemma step_size_raises_in_2199 :
  Date_of_string (QuantLib := Sample.lib_bullet) "2199-06-01"
    = Some (QL.mkDate 2199 6 1)
  ∧ Date_of_string (QuantLib := Sample.lib_bullet) "2199-12-31"
    = Some (QL.mkDate 2199 12 31)
  ∧ (QL.serialNumber (QL.mkDate 2199 6 1)
     ≤ QL.serialNumber (QL.mkDate 2199 12 31))%Z
  ∧ (∀ fuel, 2 ≤ fuel →
       step_size (H := Sample.lib_bullet) "2199-06-01" "2199-12-31" fuel
       = Raise RuntimeError)
  ∧ ¬ ∃ fuel N,
        step_size (H := Sample.lib_bullet) "2199-06-01" "2199-12-31" fuel
        = Return N.
Proof.
  split; [reflexivity|]. split; [reflexivity|]. split; [by vm_compute|].
  split; [apply QL_step_size_at_limit|].
  intros (fuel & N & Hrun). destruct fuel as [|[|fuel]].
  - vm_compute in Hrun. discriminate.
  - vm_compute in Hrun. discriminate.
  - rewrite (QL_step_size_at_limit Sample.bullet) in Hrun by lia. discriminate.
Qed.

Lemma totals_elementwise_sum_witness :
  let cf_vec := λ i, match cashflows (H := Sample.lib_bullet) "2022-01-01"
                             "2025-01-01" Sample.bond_data Sample.zero_curve 10 i
                     with Return v => v | _ => [] end in
  let red_vec := λ i, match redemptions (H := Sample.lib_bullet) "2022-01-01"
                              "2025-01-01" Sample.bond_data Sample.zero_curve 10 i
                      with Return v => v | _ => [] end in
  (step_size (H := Sample.lib_bullet) "2022-01-01" "2025-01-01" 10 = Return 3
   ∧ (∀ i, i ∈ bond_data_index Sample.bond_data →
        cashflows (H := Sample.lib_bullet) "2022-01-01" "2025-01-01"
          Sample.bond_data Sample.zero_curve 10 i = Return (cf_vec i))
   ∧ (∀ i, i ∈ bond_data_index Sample.bond_data →
        redemptions (H := Sample.lib_bullet) "2022-01-01" "2025-01-01"
          Sample.bond_data Sample.zero_curve 10 i = Return (red_vec i)))
  ∧ (∃ total,
        cashflows_total (H := Sample.lib_bullet) "2022-01-01" "2025-01-01"
          Sample.bond_data Sample.zero_curve 10 = Return total
        ∧ length total = 3
        ∧ ∀ t, t < 3 →
            total !! t
            = Some (fsum (column cf_vec (bond_data_index Sample.bond_data) t)))
  ∧ (∃ total,
        redemptions_total (H := Sample.lib_bullet) "2022-01-01" "2025-01-01"
          Sample.bond_data Sample.zero_curve 10 = Return total
        ∧ length total = 3
        ∧ ∀ t, t < 3 →
            total !! t
            = Some (fsum (column red_vec (bond_data_index Sample.bond_data) t)))
  ∧ (Sample.bond_data = [] →
        cashflows_total (H := Sample.lib_bullet) "2022-01-01" "2025-01-01"
          Sample.bond_data Sample.zero_curve 10 = Return (replicate 3 0%float)
        ∧ redemptions_total (H := Sample.lib_bullet) "2022-01-01" "2025-01-01"
            Sample.bond_data Sample.zero_curve 10 = Return (replicate 3 0%float)).
Proof.
  intros cf_vec red_vec.
  assert (∀ i, i ∈ bond_data_index Sample.bond_data →
            cashflows (H := Sample.lib_bullet) "2022-01-01" "2025-01-01"
              Sample.bond_data Sample.zero_curve 10 i = Return (cf_vec i)) as Hcf.
  { intros i Hi. repeat (apply elem_of_cons in Hi as [->|Hi]); try reflexivity.
    by apply elem_of_nil in Hi. }
  assert (∀ i, i ∈ bond_data_index Sample.bond_data →
            redemptions (H := Sample.lib_bullet) "2022-01-01" "2025-01-01"
              Sample.bond_data Sample.zero_curve 10 i = Return (red_vec i)) as Hred.
  { intros i Hi. repeat (apply elem_of_cons in Hi as [->|Hi]); try reflexivity.
    by apply elem_of_nil in Hi. }
  split; [by repeat split|].
  exact (totals_elementwise_sum (H := Sample.lib_bullet) (H0 := QuantLib_QL_laws _)
           "2022-01-01" "2025-01-01" Sample.bond_data Sample.zero_curve 10 3
           cf_vec red_vec eq_refl Hcf Hred).
Defined.

(** The tables [large_first] and [large_last] hold the same three rows, and
    each bond has the same vector of redemptions in both, [[0, 1e16, 0]],
    [[0, 1, 0]] and [[0, 1, 0]]; yet [redemptions_total] is [[0, 1e16, 0]]
    for the first table and [[0, 1e16 + 2, 0]] for the second. *)
Lemma totals_depend_on_order :
  Sample.large_last ≡ₚ Sample.large_first
  ∧ Forall (λ i,
        redemptions (H := Sample.lib_bullet) "2022-01-01" "2025-01-01"
          Sample.large_first Sample.zero_curve 10 i
        = redemptions (H := Sample.lib_bullet) "2022-01-01" "2025-01-01"
            Sample.large_last Sample.zero_curve 10 i)
      (bond_data_index Sample.large_first)
  ∧ redemptions_total (H := Sample.lib_bullet) "2022-01-01" "2025-01-01"
      Sample.large_first Sample.zero_curve 10
    = Return [0; 10000000000000000; 0]%float
  ∧ redemptions_total (H := Sample.lib_bullet) "2022-01-01" "2025-01-01"
      Sample.large_last Sample.zero_curve 10
    = Return [0; 10000000000000002; 0]%float
  ∧ redemptions_total (H := Sample.lib_bullet) "2022-01-01" "2025-01-01"
      Sample.large_first Sample.zero_curve 10
    ≠ redemptions_total (H := Sample.lib_bullet) "2022-01-01" "2025-01-01"
        Sample.large_last Sample.zero_curve 10.
Proof.
  assert (redemptions_total (H := Sample.lib_bullet) "2022-01-01" "2025-01-01"
            Sample.large_first Sample.zero_curve 10
          = Return [0; 10000000000000000; 0]%float) as Hfirst
    by (vm_compute; reflexivity).
  assert (redemptions_total (H := Sample.lib_bullet) "2022-01-01" "2025-01-01"
            Sample.large_last Sample.zero_curve 10
          = Return [0; 10000000000000002; 0]%float) as Hlast
    by (vm_compute; reflexivity).
  split; [|split; [|split; [done|split; [done|]]]].
  - unfold Sample.large_last, Sample.large_first. symmetry.
    apply (Permutation_cons_append [_; _]).
  - repeat constructor.
  - rewrite Hfirst, Hlast. discriminate.
Qed.

Lemma degenerate_calendar_witness :
  (Date_of_string (QuantLib := Sample.lib_bullet) "2022-01-01"
     = Some (QL.mkDate 2022 1 1)
   ∧ QL.serialNumber (QL.mkDate 2022 1 1) = QL.serialNumber (QL.mkDate 2022 1 1)
   ∧ 0 < 1)
  ∧ step_size (H := Sample.lib_bullet) "2022-01-01" "2022-01-01" 1 = Return 0
  ∧ ∀ bond_id bond,
      fixed_rate_bond (H := Sample.lib_bullet) "2022-01-01" Sample.bond_data
        Sample.zero_curve bond_id = Return bond →
      cashflows (H := Sample.lib_bullet) "2022-01-01" "2022-01-01"
        Sample.bond_data Sample.zero_curve 1 bond_id = Return []
      ∧ redemptions (H := Sample.lib_bullet) "2022-01-01" "2022-01-01"
          Sample.bond_data Sample.zero_curve 1 bond_id = Return [].
Proof.
  split; [repeat split; lia|].
  exact (degenerate_calendar (H := Sample.lib_bullet) "2022-01-01" "2022-01-01"
           Sample.bond_data Sample.zero_curve (QL.mkDate 2022 1 1)
           (QL.mkDate 2022 1 1) 1 eq_refl eq_refl eq_refl (Nat.lt_0_succ 0)).
Defined.

Lemma date_annual_increasing_witness :
  @QuantLibLaws Sample.lib_bullet
  ∧ date_ (H := Sample.lib_bullet) "2022-01-01" 0
    = ql (Date_of_string (QuantLib := Sample.lib_bullet) "2022-01-01")
  ∧ (∀ t d', date_ (H := Sample.lib_bullet) "2022-01-01" (S t) = Return d' ↔
       ∃ d, date_ (H := Sample.lib_bullet) "2022-01-01" t = Return d
         ∧ QL.plus_1Y d = Some d')
  ∧ (∀ t, date_ (H := Sample.lib_bullet) "2022-01-01" (S t)
          = date_ (H := Sample.lib_bullet) "2022-01-01" t
            ≫= λ d, ql (QL.plus_1Y d))
  ∧ (∀ i j di dj, i < j →
       date_ (H := Sample.lib_bullet) "2022-01-01" i = Return di →
       date_ (H := Sample.lib_bullet) "2022-01-01" j = Return dj →
       (QL.serialNumber di < QL.serialNumber dj)%Z).
Proof.
  split; [apply QuantLib_QL_laws|].
  exact (date_annual_increasing (H := Sample.lib_bullet)
           (H0 := QuantLib_QL_laws _) "2022-01-01").
Defined.

Lemma schedule_tenor_witness :
  let r := Sample.row 2000 (mkTimestamp 2019 3 1) (mkTimestamp 2024 3 1) "6M"
             0.03125%float in
  let s := mkSchedule (QL.mkDate 2019 3 1) (QL.mkDate 2024 3 1) Annual in
  (loc Sample.bond_data 2 = Return r
   ∧ schedule (H := Sample.lib_bullet) Sample.bond_data 2 = Return s)
  ∧ (sch_tenor s = Semiannual ↔ tenor r = "6Y"%string)
  ∧ (tenor r ≠ "6Y"%string → sch_tenor s = Annual)
  ∧ (tenor r = "6M"%string → sch_tenor s = Annual).
Proof.
  intros r s. split; [by split|].
  exact (schedule_tenor (H := Sample.lib_bullet) Sample.bond_data 2 r s
           eq_refl eq_refl).
Defined.

Lemma step_size_terminates_witness :
  @QuantLibLaws Sample.lib_bullet
  ∧ (∃ fuel0,
       step_size (H := Sample.lib_bullet) default_date_init default_date_end fuel0
         ≠ Diverge
       ∧ ∀ fuel, fuel0 ≤ fuel →
           step_size (H := Sample.lib_bullet) default_date_init default_date_end fuel
           = step_size (H := Sample.lib_bullet) default_date_init default_date_end
               fuel0)
  ∧ (∀ d0 e,
       QL.Date_of_string default_date_init = Some d0 →
       QL.Date_of_string default_date_end = Some e →
       ∃ fuel0,
         (∃ t dt, date_ (H := Sample.lib_bullet) default_date_init t = Return dt
            ∧ (QL.serialNumber e ≤ QL.serialNumber dt)%Z
            ∧ ∀ fuel, fuel0 ≤ fuel →
                step_size (H := Sample.lib_bullet) default_date_init
                  default_date_end fuel = Return t)
         ∨ ((∀ k dk, date_ (H := Sample.lib_bullet) default_date_init k = Return dk →
               (QL.serialNumber dk < QL.serialNumber e)%Z)
            ∧ ∀ fuel, fuel0 ≤ fuel →
                step_size (H := Sample.lib_bullet) default_date_init
                  default_date_end fuel = Raise RuntimeError))
  ∧ (∀ i, date_ (H := Sample.lib_bullet) default_date_init i ≠ Diverge).
Proof.
  split; [apply QuantLib_QL_laws|].
  exact (step_size_terminates (H := Sample.lib_bullet)
           (H0 := QuantLib_QL_laws _) default_date_init default_date_end).
Defined.

(** The strings 2022-06-01 and 2199-12-31 are valid dates, yet no [t] has
    [date_(t)] on or after the end date: the boundaries stop at 2199-06-01,
    to which the library adds no year, and [step_size()] raises
    [RuntimeError]. *)
Lemma no_boundary_reaches_end_of_2199 :
  Date_of_string (QuantLib := Sample.lib_bullet) "2022-06-01"
    = Some (QL.mkDate 2022 6 1)
  ∧ Date_of_string (QuantLib := Sample.lib_bullet) "2199-12-31"
    = Some (QL.mkDate 2199 12 31)
  ∧ date_ (H := Sample.lib_bullet) "2022-06-01" 177 = Return (QL.mkDate 2199 6 1)
  ∧ date_ (H := Sample.lib_bullet) "2022-06-01" 178 = Raise RuntimeError
  ∧ (∀ fuel, 179 ≤ fuel →
       step_size (H := Sample.lib_bullet) "2022-06-01" "2199-12-31" fuel
       = Raise RuntimeError)
  ∧ ¬ ∃ t dt, date_ (H := Sample.lib_bullet) "2022-06-01" t = Return dt
        ∧ (QL.serialNumber (QL.mkDate 2199 12 31) ≤ QL.serialNumber dt)%Z.
Proof.
  assert (step_size (H := Sample.lib_bullet) "2022-06-01" "2199-12-31" 179
          = Raise RuntimeError) as Hrun by (vm_compute; reflexivity).
  assert (∀ fuel, 179 ≤ fuel →
            step_size (H := Sample.lib_bullet) "2022-06-01" "2199-12-31" fuel
            = Raise RuntimeError) as Hraise.
  { intros fuel Hfuel.
    rewrite (step_size_fuel (H := Sample.lib_bullet) _ _ 179 fuel);
      [exact Hrun|by rewrite Hrun|exact Hfuel]. }
  split; [reflexivity|]. split; [reflexivity|].
  split; [by vm_compute|]. split; [by vm_compute|]. split; [done|].
  intros (t & dt & Ht & Hge).
  destruct (step_size_loop_reaches (H := Sample.lib_bullet)
              "2022-06-01" (S t + 179)
              (QL.mkDate 2199 12 31) 0 t dt Ht Hge) as [N HN]; [lia|lia|].
  specialize (Hraise (S t + 179) ltac:(lia)).
  unfold step_size in Hraise.
  change (Date_of_string (QuantLib := Sample.lib_bullet) "2199-12-31")
    with (Some (QL.mkDate 2199 12 31)) in Hraise.
  simpl ql in Hraise. cbn [mbind outcome_bind] in Hraise. congruence.
Qed.

(** * Further properties of the cells *)

(** ** The entries of the vectors *)

Section Periods.

Context `{QuantLibLaws}.
Variable date_init : string.
Variable date_end : string.
Variable bond_data : list (Z * BondRecord).
Variable zero_curve : list (string * float).

Local Abbreviation boundary := (date_ date_init).
Local Abbreviation bond_of := (fixed_rate_bond date_init bond_data zero_curve).

(** X1: for a bond whose cash flows are ordered by date, entry [t] of the
    vector of [cashflows] is the sum of the amounts of the cash flows
    dated in [[date_(t), date_(t+1))], added up from [0] in the order of
    the leg. *)
Theorem cashflows_period_amounts (fuel N : nat) (bond_id : Z) (bond : FixedRateBond) :
  step_size date_init date_end fuel = Return N →
  bond_of bond_id = Return bond →
  date_ordered (bond_cashflows bond) →
  ∃ result,
    cashflows date_init date_end bond_data zero_curve fuel bond_id = Return result
    ∧ length result = N
    ∧ ∀ t a b, t < N → boundary t = Return a → boundary (S t) = Return b →
        result !! t = Some (fsum (amounts_in a b (bond_cashflows bond))).
Proof.
  intros HN Hbond Hord. rewrite (cashflows_of_bond _ _ _ _ _ _ _ Hbond).
  destruct (step_size_boundaries _ _ _ _ HN) as [D HD].
  destruct (sweep_buckets date_init date_end true fuel (bond_cashflows bond) N D
              HN HD Hord) as (result & Hrun & Hlen & Hbuckets).
  exists result. split; [done|]. split; [done|]. intros t a b Ht Ha Hb.
  assert (D t = a) as <- by (specialize (HD t ltac:(lia)); congruence).
  assert (D (S t) = b) as <- by (specialize (HD (S t) ltac:(lia)); congruence).
  by apply Hbuckets.
Qed.

(** X2: [redemptions] has no assertion on the order of the dates: for
    every bond that is built it returns a vector with one entry for each
    period, whatever the order of the redemptions. *)
Theorem redemptions_returns (fuel N : nat) (bond_id : Z) (bond : FixedRateBond) :
  step_size date_init date_end fuel = Return N →
  bond_of bond_id = Return bond →
  ∃ result,
    redemptions date_init date_end bond_data zero_curve fuel bond_id = Return result
    ∧ length result = N.
Proof.
  intros HN Hbond. rewrite (redemptions_of_bond _ _ _ _ _ _ _ Hbond).
  destruct (step_size_boundaries _ _ _ _ HN) as [D HD].
  destruct (sweep_run date_init date_end false fuel (bond_redemptions bond) N D HN HD)
    as [(result & Hrun & Hlen & _)|(Hcheck & _)]; [|done].
  by exists result.
Qed.

(** X3: for a bond with a single redemption, entry [t] of the vector of
    [redemptions] is the redeemed amount, added to [0], when the redemption
    is dated in [[date_(t), date_(t+1))] and zero otherwise, so that all
    entries but at most one are zero. *)
Theorem redemptions_single (fuel N : nat) (bond_id : Z) (bond : FixedRateBond)
    (cf : CashFlow Date) :
  step_size date_init date_end fuel = Return N →
  bond_of bond_id = Return bond →
  bond_redemptions bond = [cf] →
  ∃ result,
    redemptions date_init date_end bond_data zero_curve fuel bond_id = Return result
    ∧ length result = N
    ∧ (∀ t a b, t < N → boundary t = Return a → boundary (S t) = Return b →
         result !! t
         = Some (if dated_in a b cf then (0 + cf_amount cf)%float else 0%float))
    ∧ (∀ t t' x x', t ≠ t' → result !! t = Some x → result !! t' = Some x' →
         x = 0%float ∨ x' = 0%float).
Proof.
  intros HN Hbond Hleg. rewrite (redemptions_of_bond _ _ _ _ _ _ _ Hbond), Hleg.
  destruct (step_size_boundaries _ _ _ _ HN) as [D HD].
  assert (date_ordered [cf]) as Hord by (by apply dates_ordered_sound).
  destruct (sweep_buckets date_init date_end false fuel [cf] N D HN HD Hord)
    as (result & Hrun & Hlen & Hbuckets).
  assert (∀ t, t < N →
            result !! t
            = Some (if dated_in (D t) (D (S t)) cf
                    then (0 + cf_amount cf)%float else 0%float)) as Hentry.
  { intros t Ht. rewrite (Hbuckets t Ht), amounts_in_cons.
    by destruct (dated_in (D t) (D (S t)) cf). }
  exists result. split; [done|]. split; [done|]. split.
  - intros t a b Ht Ha Hb.
    assert (D t = a) as <- by (specialize (HD t ltac:(lia)); congruence).
    assert (D (S t) = b) as <- by (specialize (HD (S t) ltac:(lia)); congruence).
    by apply Hentry.
  - assert (∀ t t' x x', t < t' → result !! t = Some x → result !! t' = Some x' →
              x = 0%float ∨ x' = 0%float) as Hlt.
    { intros t t' x x' Htt' Hx Hx'.
      pose proof (lookup_lt_Some _ _ _ Hx'). 
      pose proof (Hentry t ltac:(lia)) as Hy.
      pose proof (Hentry t' ltac:(lia)) as Hy'.
      pose proof (date_monotone date_init (S t) t' (D (S t)) (D t') ltac:(lia)
                    (HD (S t) ltac:(lia)) (HD t' ltac:(lia))) as Hmono.
      destruct (dated_in (D t) (D (S t)) cf) eqn:Hin; [|left; congruence].
      destruct (dated_in (D t') (D (S t')) cf) eqn:Hin'; [|right; congruence].
      apply dated_in_true in Hin. apply dated_in_true in Hin'. lia. }
    intros t t' x x' Hne Hx Hx'.
    destruct (decide (t < t')) as [Htt'|Htt'].
    + by apply (Hlt t t').
    + destruct (Hlt t' t x' x); [lia|done|done|by right|by left].
Qed.

End Periods.

(** ** The bond table and the bonds *)

Lemma loc_in_KeyError (rows : list (Z * BondRecord)) (bond_id : Z) :
  loc_in rows bond_id = Raise KeyError ↔ bond_id ∉ rows.*1.
Proof.
  induction rows as [|[k r] rows IH]; simpl.
  - split; [intros _; apply not_elem_of_nil|done].
  - rewrite not_elem_of_cons. destruct (Z.eqb_spec k bond_id) as [->|Hne].
    + split; [done|]. by intros [? _].
    + rewrite IH. split; [by split|by intros [_ ?]].
Qed.

(** A lookup returns a row or raises [KeyError]. *)
Lemma loc_in_cases (rows : list (Z * BondRecord)) (bond_id : Z) :
  (∃ r, loc_in rows bond_id = Return r ∧ (bond_id, r) ∈ rows)
  ∨ (loc_in rows bond_id = Raise KeyError ∧ bond_id ∉ rows.*1).
Proof.
  induction rows as [|[k r] rows IH]; simpl.
  - right. split; [done|apply not_elem_of_nil].
  - destruct (Z.eqb_spec k bond_id) as [->|Hne].
    + left. exists r. split; [done|left].
    + destruct IH as [(r' & -> & Hin)|[-> Hnot]].
      * left. exists r'. split; [done|by right].
      * right. split; [done|]. rewrite not_elem_of_cons. by split.
Qed.

Section Table.

Context `{QuantLib}.
Variable date_init : string.
Variable date_end : string.
Variable bond_data : list (Z * BondRecord).
Variable zero_curve : list (string * float).

Local Abbreviation bond_of := (fixed_rate_bond date_init bond_data zero_curve).

(** X4: for a bond identifier that is not in the index of the table,
    [schedule] and [fixed_rate_bond] raise [KeyError], and so do
    [cashflows] and [redemptions] once [step_size()] has returned. *)
Theorem unknown_bond_KeyError (bond_id : Z) :
  bond_id ∉ bond_data_index bond_data →
  schedule bond_data bond_id = Raise KeyError
  ∧ bond_of bond_id = Raise KeyError
  ∧ ∀ fuel N, step_size date_init date_end fuel = Return N →
      cashflows date_init date_end bond_data zero_curve fuel bond_id = Raise KeyError
      ∧ redemptions date_init date_end bond_data zero_curve fuel bond_id
        = Raise KeyError.
Proof.
  intros Hnot. apply loc_in_KeyError in Hnot.
  assert (bond_of bond_id = Raise KeyError) as Hbond.
  { unfold fixed_rate_bond, loc. by rewrite Hnot. }
  split; [unfold schedule, loc; by rewrite Hnot|]. split; [done|].
  intros fuel N HN. unfold cashflows, redemptions, sweep. by rewrite HN, Hbond.
Qed.

(** X6: an end date that the library does not read makes [step_size],
    [cashflows], [redemptions] and both totals raise [RuntimeError], for
    every fuel and every bond identifier, in the table or not. *)
Theorem invalid_end_date (fuel : nat) (bond_id : Z) :
  Date_of_string date_end = None →
  step_size date_init date_end fuel = Raise RuntimeError
  ∧ cashflows date_init date_end bond_data zero_curve fuel bond_id
    = Raise RuntimeError
  ∧ redemptions date_init date_end bond_data zero_curve fuel bond_id
    = Raise RuntimeError
  ∧ cashflows_total date_init date_end bond_data zero_curve fuel
    = Raise RuntimeError
  ∧ redemptions_total date_init date_end bond_data zero_curve fuel
    = Raise RuntimeError.
Proof.
  intros Hend.
  assert (step_size date_init date_end fuel = Raise RuntimeError) as HN.
  { unfold step_size. by rewrite Hend. }
  unfold cashflows, redemptions, sweep, cashflows_total, redemptions_total,
    portfolio_total. by rewrite HN.
Qed.

(** X7: a valuation date that the library does not read makes every
    [date_(i)] raise [RuntimeError], and with it [step_size],
    [riskfree_curve], [fixed_rate_bond] for every identifier of the table
    and, for a table that is not empty, [market_values]. *)
Theorem invalid_valuation_date :
  Date_of_string date_init = None →
  (∀ i, date_ date_init i = Raise RuntimeError)
  ∧ (∀ fuel, 0 < fuel → step_size date_init date_end fuel = Raise RuntimeError)
  ∧ riskfree_curve date_init zero_curve = Raise RuntimeError
  ∧ (∀ bond_id, bond_id ∈ bond_data_index bond_data →
       bond_of bond_id = Raise RuntimeError)
  ∧ (bond_data ≠ [] →
       market_values date_init bond_data zero_curve = Raise RuntimeError).
Proof.
  intros Hinit.
  assert (∀ i, date_ date_init i = Raise RuntimeError) as Hdate.
  { intros i. apply (date_Raise_later date_init RuntimeError 0 i); [|lia].
    simpl. by rewrite Hinit. }
  assert (riskfree_curve date_init zero_curve = Raise RuntimeError) as Hcurve.
  { unfold riskfree_curve. by rewrite Hdate. }
  assert (∀ bond_id, bond_id ∈ bond_data_index bond_data →
            bond_of bond_id = Raise RuntimeError) as Hbond.
  { intros bond_id Hin. unfold fixed_rate_bond, schedule, loc.
    destruct (loc_in_cases bond_data bond_id) as [(r & -> & _)|[_ Hnot]]; [|done].
    simpl.
    destruct (Date_of_dmy (ts_day (issue_date r)) (ts_month (issue_date r))
                (ts_year (issue_date r))); [|done]. simpl.
    destruct (Date_of_dmy (ts_day (maturity_date r)) (ts_month (maturity_date r))
                (ts_year (maturity_date r))); [|done]. simpl.
    destruct (ql_Schedule_accepts _ _ _); [|done]. simpl.
    by rewrite Hcurve. }
  split; [done|]. split; [|split; [done|split; [done|]]].
  - intros [|fuel] Hfuel; [lia|]. unfold step_size.
    destruct (Date_of_string date_end); [|done]. simpl. by rewrite Hinit.
  - intros Hne. unfold market_values.
    destruct (bond_data_index bond_data) as [|k ids] eqn:Hidx.
    + by apply fmap_nil_inv in Hidx.
    + simpl. rewrite (Hbond k); [done|]. left.
Qed.

End Table.

(** ** Failures and edges of the portfolio cells *)

Lemma for_each_app {A S : Type} (body : A → S → outcome S) (xs ys : list A) (s : S) :
  for_each body (xs ++ ys) s = for_each body xs s ≫= for_each body ys.
Proof.
  revert s. induction xs as [|x xs IH]; intros s; simpl; [done|].
  destruct (body x s) as [s'| |]; simpl; [apply IH|done|done].
Qed.

Lemma mapM_first_Raise {A B : Type} (f : A → outcome B) (xs ys : list A) (x : A)
    (e : exn) :
  (∀ z, z ∈ xs → ∃ b, f z = Return b) → f x = Raise e →
  mapM f (xs ++ x :: ys) = Raise e.
Proof.
  intros Hxs Hx. induction xs as [|z xs IH]; simpl.
  - by rewrite Hx.
  - destruct (Hxs z) as [b ->]; [left|]. simpl. rewrite IH; [done|].
    intros z' Hz'. apply Hxs. by right.
Qed.

Section Failures.

Context `{QuantLibLaws}.
Variable date_init : string.
Variable date_end : string.
Variable bond_data : list (Z * BondRecord).
Variable zero_curve : list (string * float).

Local Abbreviation bond_of := (fixed_rate_bond date_init bond_data zero_curve).

(** A total raises what the first failing bond of the table raises. *)
Lemma portfolio_total_first_Raise (cell : Z → outcome (list float))
    (fuel N : nat)
    (ids1 ids2 : list Z) (i : Z) (e : exn) :
  step_size date_init date_end fuel = Return N → 0 < N →
  bond_data_index bond_data = ids1 ++ i :: ids2 →
  (∀ j, j ∈ ids1 → ∃ v, cell j = Return v ∧ length v = N) →
  cell i = Raise e →
  portfolio_total date_init date_end bond_data cell fuel = Raise e.
Proof.
  intros HN HposN Hidx Hids1 Hi. unfold portfolio_total, range. rewrite HN, Hidx.
  destruct N as [|N]; [lia|]. simpl. rewrite for_each_app.
  destruct (for_bonds_run cell (λ j, match cell j with Return v => v | _ => [] end)
              ids1 0 (0%float :: replicate N 0%float))
    as (result1 & -> & Hlen1 & _ & Hentry).
  { intros j Hj. destruct (Hids1 j Hj) as (v & -> & Hlen). split; [done|lia]. }
  { simpl. lia. }
  simpl. rewrite (proj2 (item_Return result1 0 _) (Hentry _ eq_refl)). simpl.
  by rewrite Hi.
Qed.

(** X8: with a calendar of at least one period, when a bond of the table
    fails in [cashflows] (or in [redemptions]) and the bonds before it in
    the table have their vectors, [cashflows_total] (or
    [redemptions_total]) raises the exception of that bond. *)
Theorem totals_first_failure (fuel N : nat) (ids1 ids2 : list Z) (i : Z) (e : exn) :
  step_size date_init date_end fuel = Return N → 0 < N →
  bond_data_index bond_data = ids1 ++ i :: ids2 →
  ((∀ j, j ∈ ids1 →
      ∃ v, cashflows date_init date_end bond_data zero_curve fuel j = Return v) →
   cashflows date_init date_end bond_data zero_curve fuel i = Raise e →
   cashflows_total date_init date_end bond_data zero_curve fuel = Raise e)
  ∧ ((∀ j, j ∈ ids1 →
        ∃ v, redemptions date_init date_end bond_data zero_curve fuel j = Return v) →
     redemptions date_init date_end bond_data zero_curve fuel i = Raise e →
     redemptions_total date_init date_end bond_data zero_curve fuel = Raise e).
Proof.
  intros HN HposN Hidx. split; intros Hids1 Hi;
    (eapply portfolio_total_first_Raise; [done|done|done| |done]);
    intros j Hj; destruct (Hids1 j Hj) as [v Hv]; exists v; (split; [done|]);
    by eapply sweep_length.
Qed.

(** X9: when a bond of the table cannot be built and the bonds before it
    in the table can, [market_values] raises the exception of that
    bond. *)
Theorem market_values_first_failure (ids1 ids2 : list Z) (i : Z) (e : exn) :
  bond_data_index bond_data = ids1 ++ i :: ids2 →
  (∀ j, j ∈ ids1 → ∃ b, bond_of j = Return b) →
  bond_of i = Raise e →
  market_values date_init bond_data zero_curve = Raise e.
Proof.
  intros Hidx Hids1 Hi. unfold market_values. rewrite Hidx.
  apply mapM_first_Raise.
  - intros j Hj. destruct (Hids1 j Hj) as [b Hb]. rewrite Hb. by eexists.
  - by rewrite Hi.
Qed.

End Failures.

(** ** Two projection horizons *)

Section Horizons.

Context `{QuantLibLaws}.
Variable date_init : string.
Variable bond_data : list (Z * BondRecord).
Variable zero_curve : list (string * float).

Local Abbreviation boundary := (date_ date_init).
Local Abbreviation bond_of := (fixed_rate_bond date_init bond_data zero_curve).

Lemma step_size_Return (date_end : string) (fuel N : nat) :
  step_size date_init date_end fuel = Return N →
  ∃ e, Date_of_string date_end = Some e
    ∧ (∃ dN, boundary N = Return dN ∧ (serialNumber e ≤ serialNumber dN)%Z)
    ∧ (∀ k, k < N →
         ∃ dk, boundary k = Return dk ∧ (serialNumber dk < serialNumber e)%Z).
Proof.
  unfold step_size. intros Hrun. apply bind_Return in Hrun as (e & He & Hrun).
  apply ql_Return in He. exists e. split; [done|].
  apply step_size_loop_Return in Hrun as (_ & HN & Hbelow). split; [done|].
  intros k Hk. apply Hbelow. lia.
Qed.

(** X10: a later end date does not shorten the calendar: of two end dates
    for the same valuation date, the later one has the larger
    [step_size()]. *)
Theorem step_size_monotone (end1 end2 : string) (e1 e2 : Date)
    (fuel1 fuel2 N1 N2 : nat) :
  Date_of_string end1 = Some e1 → Date_of_string end2 = Some e2 →
  (serialNumber e1 ≤ serialNumber e2)%Z →
  step_size date_init end1 fuel1 = Return N1 →
  step_size date_init end2 fuel2 = Return N2 →
  N1 ≤ N2.
Proof.
  intros He1 He2 Hle Hrun1 Hrun2.
  apply step_size_Return in Hrun1 as (e1' & He1' & _ & Hbelow).
  apply step_size_Return in Hrun2 as (e2' & He2' & (d & Hd & Hge) & _).
  assert (e1' = e1) as -> by congruence. assert (e2' = e2) as -> by congruence.
  destruct (decide (N1 ≤ N2)) as [|Hgt]; [done|].
  destruct (Hbelow N2) as (d' & Hd' & Hlt); [lia|].
  assert (d' = d) as -> by congruence. lia.
Qed.

(** X11: a longer horizon extends the projection of a shorter one: for a
    bond whose cash flows are ordered by date, the vector of [cashflows]
    for the calendar of [N1] periods and the first [N1] entries of its
    vector for a calendar of [N2 >= N1] periods hold the same amounts. *)
Theorem cashflows_horizon_prefix (end1 end2 : string) (fuel1 fuel2 N1 N2 : nat)
    (bond_id : Z) (bond : FixedRateBond) :
  step_size date_init end1 fuel1 = Return N1 →
  step_size date_init end2 fuel2 = Return N2 →
  N1 ≤ N2 →
  bond_of bond_id = Return bond →
  date_ordered (bond_cashflows bond) →
  ∃ r1 r2,
    cashflows date_init end1 bond_data zero_curve fuel1 bond_id = Return r1
    ∧ cashflows date_init end2 bond_data zero_curve fuel2 bond_id = Return r2
    ∧ length r1 = N1 ∧ length r2 = N2
    ∧ ∀ t, t < N1 →
        ∃ x1 x2, r1 !! t = Some x1 ∧ r2 !! t = Some x2 ∧ x1 = x2.
Proof.
  intros HN1 HN2 Hle Hbond Hord.
  rewrite !(cashflows_of_bond _ _ _ _ _ _ _ Hbond).
  destruct (step_size_boundaries _ _ _ _ HN2) as [D HD].
  destruct (sweep_buckets date_init end1 true fuel1 (bond_cashflows bond) N1 D HN1)
    as (r1 & Hr1 & Hlen1 & Hb1); [intros k Hk; apply HD; lia|done|].
  destruct (sweep_buckets date_init end2 true fuel2 (bond_cashflows bond) N2 D HN2 HD
              Hord) as (r2 & Hr2 & Hlen2 & Hb2).
  exists r1, r2. split; [done|]. split; [done|]. split; [done|]. split; [done|].
  intros t Ht. eexists _, _. split; [by apply Hb1|].
  split; [apply Hb2; lia|done].
Qed.

End Horizons.

(** ** The totals period by period *)

Section Total_periods.

Context `{QuantLibLaws}.
Variable date_init : string.
Variable date_end : string.
Variable bond_data : list (Z * BondRecord).
Variable zero_curve : list (string * float).

Local Abbreviation boundary := (date_ date_init).
Local Abbreviation bond_of := (fixed_rate_bond date_init bond_data zero_curve).

(** A total over bonds whose legs are ordered by date: entry [t] is the
    sum over the bonds, in the order of the table, of their sums of the
    amounts dated in period [t]. *)
Lemma portfolio_total_periods (check : bool) (leg_of : Z → list (CashFlow Date))
    (cell : Z → outcome (list float)) (fuel N : nat) (D : nat → Date) :
  step_size date_init date_end fuel = Return N →
  (∀ k, k ≤ N → boundary k = Return (D k)) →
  (∀ i, i ∈ bond_data_index bond_data →
     cell i = sweep date_init date_end check fuel (Return (leg_of i))
     ∧ date_ordered (leg_of i)) →
  ∃ total,
    portfolio_total date_init date_end bond_data cell fuel = Return total
    ∧ length total = N
    ∧ ∀ t, t < N →
        total !! t
        = Some (fsum ((λ i, fsum (amounts_in (D t) (D (S t)) (leg_of i)))
                      <$> bond_data_index bond_data)).
Proof.
  intros HN HD Hcell.
  set (vec := λ i, match cell i with Return v => v | _ => [] end).
  assert (∀ i, i ∈ bond_data_index bond_data →
            cell i = Return (vec i) ∧ length (vec i) = N
            ∧ ∀ t, t < N →
                vec i !! t = Some (fsum (amounts_in (D t) (D (S t)) (leg_of i))))
    as Hvec.
  { intros i Hi. destruct (Hcell i Hi) as [Hsweep Hord]. unfold vec.
    destruct (sweep_buckets date_init date_end check fuel (leg_of i) N D HN HD Hord)
      as (result & Hrun & Hlen & Hbuckets).
    rewrite Hsweep, Hrun. done. }
  destruct (portfolio_total_sum date_init date_end bond_data cell vec fuel N HN)
    as (total & Hrun & Hlen & Hentries).
  { intros i Hi. destruct (Hvec i Hi) as (? & ? & _). by split. }
  exists total. split; [done|]. split; [done|]. intros t Ht.
  rewrite (Hentries t Ht). do 2 f_equal. unfold column.
  apply list_fmap_ext. intros k i Hi.
  destruct (Hvec i) as (_ & _ & Hbuckets); [by eapply list_elem_of_lookup_2|].
  by rewrite (Hbuckets t Ht).
Qed.

(** X14: when every bond of the table is built and its two legs are
    ordered by date, entry [t] of [cashflows_total] is the sum over the
    bonds, in the order of the table, of the sums of the amounts of their
    cash flows dated in [[date_(t), date_(t+1))], and entry [t] of
    [redemptions_total] is that sum for their redemptions; every sum is
    added up from [0] from left to right. *)
Theorem totals_period_amounts (fuel N : nat) (bonds : Z → FixedRateBond) :
  step_size date_init date_end fuel = Return N →
  (∀ i, i ∈ bond_data_index bond_data →
     bond_of i = Return (bonds i)
     ∧ date_ordered (bond_cashflows (bonds i))
     ∧ date_ordered (bond_redemptions (bonds i))) →
  ∃ cf_total red_total,
    cashflows_total date_init date_end bond_data zero_curve fuel = Return cf_total
    ∧ redemptions_total date_init date_end bond_data zero_curve fuel
      = Return red_total
    ∧ length cf_total = N ∧ length red_total = N
    ∧ ∀ t a b, t < N → boundary t = Return a → boundary (S t) = Return b →
        cf_total !! t
        = Some (fsum ((λ i, fsum (amounts_in a b (bond_cashflows (bonds i))))
                      <$> bond_data_index bond_data))
        ∧ red_total !! t
          = Some (fsum ((λ i, fsum (amounts_in a b (bond_redemptions (bonds i))))
                        <$> bond_data_index bond_data)).
Proof.
  intros HN Hbonds. destruct (step_size_boundaries _ _ _ _ HN) as [D HD].
  destruct (portfolio_total_periods true (λ i, bond_cashflows (bonds i))
              (cashflows date_init date_end bond_data zero_curve fuel) fuel N D HN HD)
    as (cf_total & Hcf & Hlcf & Hecf).
  { intros i Hi. destruct (Hbonds i Hi) as (Hbond & Hord & _).
    split; [by apply cashflows_of_bond|done]. }
  destruct (portfolio_total_periods false (λ i, bond_redemptions (bonds i))
              (redemptions date_init date_end bond_data zero_curve fuel) fuel N D HN HD)
    as (red_total & Hred & Hlred & Hered).
  { intros i Hi. destruct (Hbonds i Hi) as (Hbond & _ & Hord).
    split; [by apply redemptions_of_bond|done]. }
  exists cf_total, red_total. split; [done|]. split; [done|]. split; [done|].
  split; [done|]. intros t a b Ht Ha Hb.
  assert (D t = a) as <- by (specialize (HD t ltac:(lia)); congruence).
  assert (D (S t) = b) as <- by (specialize (HD (S t) ltac:(lia)); congruence).
  split; [by apply Hecf|by apply Hered].
Qed.

(** The boundary of index [k] is at least [k] days after the valuation
    date. *)
Lemma date_at_least (k : nat) (d0 dk : Date) :
  boundary 0 = Return d0 → boundary k = Return dk →
  (serialNumber d0 + Z.of_nat k ≤ serialNumber dk)%Z.
Proof.
  intros Hd0. revert dk. induction k as [|k IH]; intros dk Hk.
  - assert (dk = d0) as -> by congruence. lia.
  - apply date_S_Return in Hk as (d & Hd & Hplus). specialize (IH d Hd).
    apply plus_1Y_later in Hplus. lia.
Qed.

(** X15: [step_size()] is at most the number of days from the valuation
    date to the end date, and 0 when the end date is not later. *)
Theorem step_size_at_most_days (d0 e : Date) (fuel N : nat) :
  Date_of_string date_init = Some d0 →
  Date_of_string date_end = Some e →
  step_size date_init date_end fuel = Return N →
  N ≤ Z.to_nat (serialNumber e - serialNumber d0).
Proof.
  intros Hinit Hend HN. unfold step_size in HN. rewrite Hend in HN. simpl in HN.
  apply step_size_loop_Return in HN as (_ & _ & Hbelow).
  destruct N as [|N]; [lia|].
  destruct (Hbelow N) as (dk & Hdk & Hlt); [lia|].
  assert (boundary 0 = Return d0) as Hd0 by (simpl; by rewrite Hinit).
  pose proof (date_at_least N d0 dk Hd0 Hdk). lia.
Qed.

End Total_periods.

(** ** The further properties at sample inputs *)

Lemma cashflows_period_amounts_witness :
  (step_size (H := Sample.lib_ordered) "2022-01-01" "2025-01-01" 10 = Return 3
   ∧ fixed_rate_bond (H := Sample.lib_ordered) "2022-01-01" Sample.bond_data
       Sample.zero_curve 1 = Return (Sample.legs Sample.ordered_leg [])
   ∧ date_ordered (H := Sample.lib_ordered) Sample.ordered_leg)
  ∧ ∃ result,
      cashflows (H := Sample.lib_ordered) "2022-01-01" "2025-01-01"
        Sample.bond_data Sample.zero_curve 10 1 = Return result
      ∧ length result = 3
      ∧ ∀ t a b, t < 3 →
          date_ (H := Sample.lib_ordered) "2022-01-01" t = Return a →
          date_ (H := Sample.lib_ordered) "2022-01-01" (S t) = Return b →
          result !! t
          = Some (fsum (amounts_in (H := Sample.lib_ordered) a b
                          Sample.ordered_leg)).
Proof.
  assert (date_ordered (H := Sample.lib_ordered) Sample.ordered_leg) as Hord
    by (by apply dates_ordered_sound).
  split; [by repeat split|].
  exact (cashflows_period_amounts (H := Sample.lib_ordered)
           (H0 := QuantLib_QL_laws _) "2022-01-01" "2025-01-01" Sample.bond_data
           Sample.zero_curve 10 3 1 (Sample.legs Sample.ordered_leg [])
           eq_refl eq_refl Hord).
Defined.

Lemma redemptions_returns_witness :
  (step_size (H := Sample.lib_unordered) "2022-01-01" "2025-01-01" 10 = Return 3
   ∧ fixed_rate_bond (H := Sample.lib_unordered) "2022-01-01" Sample.bond_data
       Sample.zero_curve 1
     = Return (Sample.legs Sample.unordered_leg Sample.unordered_leg))
  ∧ ∃ result,
      redemptions (H := Sample.lib_unordered) "2022-01-01" "2025-01-01"
        Sample.bond_data Sample.zero_curve 10 1 = Return result
      ∧ length result = 3.
Proof.
  split; [by split|].
  exact (redemptions_returns (H := Sample.lib_unordered)
           (H0 := QuantLib_QL_laws _) "2022-01-01" "2025-01-01" Sample.bond_data
           Sample.zero_curve 10 3 1
           (Sample.legs Sample.unordered_leg Sample.unordered_leg) eq_refl eq_refl).
Defined.

Lemma redemptions_single_witness :
  (step_size (H := Sample.lib_bullet) "2022-01-01" "2025-01-01" 10 = Return 3
   ∧ fixed_rate_bond (H := Sample.lib_bullet) "2022-01-01" Sample.bond_data
       Sample.zero_curve 1 = Return (Sample.built Sample.bond_data 1)
   ∧ QL.bond_redemptions (Sample.built Sample.bond_data 1)
     = [Sample.on 2023 6 15 1000])
  ∧ ∃ result,
      redemptions (H := Sample.lib_bullet) "2022-01-01" "2025-01-01"
        Sample.bond_data Sample.zero_curve 10 1 = Return result
      ∧ length result = 3
      ∧ (∀ t a b, t < 3 →
           date_ (H := Sample.lib_bullet) "2022-01-01" t = Return a →
           date_ (H := Sample.lib_bullet) "2022-01-01" (S t) = Return b →
           result !! t
           = Some (if dated_in (H := Sample.lib_bullet) a b
                        (Sample.on 2023 6 15 1000)
                   then (0 + 1000)%float else 0%float))
      ∧ (∀ t t' x x', t ≠ t' → result !! t = Some x → result !! t' = Some x' →
           x = 0%float ∨ x' = 0%float).
Proof.
  split; [by repeat split|].
  exact (redemptions_single (H := Sample.lib_bullet) (H0 := QuantLib_QL_laws _)
           "2022-01-01" "2025-01-01" Sample.bond_data Sample.zero_curve 10 3 1
           (Sample.built Sample.bond_data 1) (Sample.on 2023 6 15 1000)
           eq_refl eq_refl eq_refl).
Defined.

Lemma unknown_bond_KeyError_witness :
  (4%Z ∉ bond_data_index Sample.bond_data)
  ∧ schedule (H := Sample.lib_bullet) Sample.bond_data 4 = Raise KeyError
  ∧ fixed_rate_bond (H := Sample.lib_bullet) "2022-01-01" Sample.bond_data
      Sample.zero_curve 4 = Raise KeyError
  ∧ ∀ fuel N,
      step_size (H := Sample.lib_bullet) "2022-01-01" "2025-01-01" fuel = Return N →
      cashflows (H := Sample.lib_bullet) "2022-01-01" "2025-01-01"
        Sample.bond_data Sample.zero_curve fuel 4 = Raise KeyError
      ∧ redemptions (H := Sample.lib_bullet) "2022-01-01" "2025-01-01"
          Sample.bond_data Sample.zero_curve fuel 4 = Raise KeyError.
Proof.
  assert (4%Z ∉ bond_data_index Sample.bond_data) as Hnot.
  { intros Hin. repeat (apply elem_of_cons in Hin as [Heq|Hin]; [discriminate Heq|]).
    by apply elem_of_nil in Hin. }
  split; [done|].
  exact (unknown_bond_KeyError (H := Sample.lib_bullet) "2022-01-01" "2025-01-01"
           Sample.bond_data Sample.zero_curve 4 Hnot).
Defined.

Lemma invalid_end_date_witness :
  Date_of_string (QuantLib := Sample.lib_bullet) "2025-02-30" = None
  ∧ step_size (H := Sample.lib_bullet) "2022-01-01" "2025-02-30" 10
    = Raise RuntimeError
  ∧ cashflows (H := Sample.lib_bullet) "2022-01-01" "2025-02-30"
      Sample.bond_data Sample.zero_curve 10 4 = Raise RuntimeError
  ∧ redemptions (H := Sample.lib_bullet) "2022-01-01" "2025-02-30"
      Sample.bond_data Sample.zero_curve 10 4 = Raise RuntimeError
  ∧ cashflows_total (H := Sample.lib_bullet) "2022-01-01" "2025-02-30"
      Sample.bond_data Sample.zero_curve 10 = Raise RuntimeError
  ∧ redemptions_total (H := Sample.lib_bullet) "2022-01-01" "2025-02-30"
      Sample.bond_data Sample.zero_curve 10 = Raise RuntimeError.
Proof.
  split; [reflexivity|].
  exact (invalid_end_date (H := Sample.lib_bullet) "2022-01-01" "2025-02-30"
           Sample.bond_data Sample.zero_curve 10 4 eq_refl).
Defined.

Lemma invalid_valuation_date_witness :
  Date_of_string (QuantLib := Sample.lib_bullet) "2022-13-01" = None
  ∧ (∀ i, date_ (H := Sample.lib_bullet) "2022-13-01" i = Raise RuntimeError)
  ∧ (∀ fuel, 0 < fuel →
       step_size (H := Sample.lib_bullet) "2022-13-01" "2025-01-01" fuel
       = Raise RuntimeError)
  ∧ riskfree_curve (H := Sample.lib_bullet) "2022-13-01" Sample.zero_curve
    = Raise RuntimeError
  ∧ (∀ bond_id, bond_id ∈ bond_data_index Sample.bond_data →
       fixed_rate_bond (H := Sample.lib_bullet) "2022-13-01" Sample.bond_data
         Sample.zero_curve bond_id = Raise RuntimeError)
  ∧ (Sample.bond_data ≠ [] →
       market_values (H := Sample.lib_bullet) "2022-13-01" Sample.bond_data
         Sample.zero_curve = Raise RuntimeError).
Proof.
  split; [reflexivity|].
  exact (invalid_valuation_date (H := Sample.lib_bullet) "2022-13-01" "2025-01-01"
           Sample.bond_data Sample.zero_curve eq_refl).
Defined.

Lemma totals_first_failure_witness :
  (step_size (H := Sample.lib_bullet) "2022-01-01" "2025-01-01" 10 = Return 3
   ∧ 0 < 3
   ∧ bond_data_index Sample.bad_bond_data = [1%Z] ++ 5%Z :: [3%Z]
   ∧ (∀ j, j ∈ [1%Z] →
        ∃ v, cashflows (H := Sample.lib_bullet) "2022-01-01" "2025-01-01"
               Sample.bad_bond_data Sample.zero_curve 10 j = Return v)
   ∧ cashflows (H := Sample.lib_bullet) "2022-01-01" "2025-01-01"
       Sample.bad_bond_data Sample.zero_curve 10 5 = Raise RuntimeError)
  ∧ cashflows_total (H := Sample.lib_bullet) "2022-01-01" "2025-01-01"
      Sample.bad_bond_data Sample.zero_curve 10 = Raise RuntimeError.
Proof.
  assert (∀ j, j ∈ [1%Z] →
            ∃ v, cashflows (H := Sample.lib_bullet) "2022-01-01" "2025-01-01"
                   Sample.bad_bond_data Sample.zero_curve 10 j = Return v) as Hbefore.
  { intros j Hj. apply list_elem_of_singleton in Hj as ->. by eexists. }
  split; [repeat split; [lia|done]|].
  exact (proj1 (totals_first_failure (H := Sample.lib_bullet)
                  (H0 := QuantLib_QL_laws _) "2022-01-01" "2025-01-01"
                  Sample.bad_bond_data Sample.zero_curve 10 3 [1%Z] [3%Z] 5
                  RuntimeError eq_refl (Nat.lt_0_succ 2) eq_refl)
           Hbefore eq_refl).
Defined.

Lemma market_values_first_failure_witness :
  (bond_data_index Sample.bad_bond_data = [1%Z] ++ 5%Z :: [3%Z]
   ∧ (∀ j, j ∈ [1%Z] →
        ∃ b, fixed_rate_bond (H := Sample.lib_bullet) "2022-01-01"
               Sample.bad_bond_data Sample.zero_curve j = Return b)
   ∧ fixed_rate_bond (H := Sample.lib_bullet) "2022-01-01" Sample.bad_bond_data
       Sample.zero_curve 5 = Raise RuntimeError)
  ∧ market_values (H := Sample.lib_bullet) "2022-01-01" Sample.bad_bond_data
      Sample.zero_curve = Raise RuntimeError.
Proof.
  assert (∀ j, j ∈ [1%Z] →
            ∃ b, fixed_rate_bond (H := Sample.lib_bullet) "2022-01-01"
                   Sample.bad_bond_data Sample.zero_curve j = Return b) as Hbefore.
  { intros j Hj. apply list_elem_of_singleton in Hj as ->. by eexists. }
  split; [by repeat split|].
  exact (market_values_first_failure (H := Sample.lib_bullet) "2022-01-01"
           Sample.bad_bond_data Sample.zero_curve [1%Z] [3%Z] 5 RuntimeError
           eq_refl Hbefore eq_refl).
Defined.

Lemma step_size_monotone_witness :
  (Date_of_string (QuantLib := Sample.lib_bullet) "2025-01-01"
     = Some (QL.mkDate 2025 1 1)
   ∧ Date_of_string (QuantLib := Sample.lib_bullet) "2030-06-01"
     = Some (QL.mkDate 2030 6 1)
   ∧ (QL.serialNumber (QL.mkDate 2025 1 1) ≤ QL.serialNumber (QL.mkDate 2030 6 1))%Z
   ∧ step_size (H := Sample.lib_bullet) "2022-01-01" "2025-01-01" 10 = Return 3
   ∧ step_size (H := Sample.lib_bullet) "2022-01-01" "2030-06-01" 12 = Return 9)
  ∧ 3 ≤ 9.
Proof.
  assert (QL.serialNumber (QL.mkDate 2025 1 1)
          ≤ QL.serialNumber (QL.mkDate 2030 6 1))%Z as Hle by (by vm_compute).
  split; [by repeat split|].
  exact (step_size_monotone (H := Sample.lib_bullet) "2022-01-01" "2025-01-01"
           "2030-06-01" (QL.mkDate 2025 1 1) (QL.mkDate 2030 6 1) 10 12 3 9
           eq_refl eq_refl Hle eq_refl eq_refl).
Defined.

Lemma cashflows_horizon_prefix_witness :
  (step_size (H := Sample.lib_ordered) "2022-01-01" "2025-01-01" 10 = Return 3
   ∧ step_size (H := Sample.lib_ordered) "2022-01-01" "2030-06-01" 12 = Return 9
   ∧ 3 ≤ 9
   ∧ fixed_rate_bond (H := Sample.lib_ordered) "2022-01-01" Sample.bond_data
       Sample.zero_curve 1 = Return (Sample.legs Sample.ordered_leg [])
   ∧ date_ordered (H := Sample.lib_ordered) Sample.ordered_leg)
  ∧ ∃ r1 r2,
      cashflows (H := Sample.lib_ordered) "2022-01-01" "2025-01-01"
        Sample.bond_data Sample.zero_curve 10 1 = Return r1
      ∧ cashflows (H := Sample.lib_ordered) "2022-01-01" "2030-06-01"
          Sample.bond_data Sample.zero_curve 12 1 = Return r2
      ∧ length r1 = 3 ∧ length r2 = 9
      ∧ ∀ t, t < 3 →
          ∃ x1 x2, r1 !! t = Some x1 ∧ r2 !! t = Some x2 ∧ x1 = x2.
Proof.
  assert (date_ordered (H := Sample.lib_ordered) Sample.ordered_leg) as Hord
    by (by apply dates_ordered_sound).
  assert (3 ≤ 9) as Hle by lia.
  split; [by repeat split|].
  exact (cashflows_horizon_prefix (H := Sample.lib_ordered)
           (H0 := QuantLib_QL_laws _) "2022-01-01" Sample.bond_data
           Sample.zero_curve "2025-01-01" "2030-06-01" 10 12 3 9 1
           (Sample.legs Sample.ordered_leg []) eq_refl eq_refl Hle eq_refl Hord).
Defined.

(** The bonds that [lib_bullet] builds for the sample table have ordered
    legs. *)
Lemma sample_bonds_built (i : Z) :
  i ∈ bond_data_index Sample.bond_data →
  fixed_rate_bond (H := Sample.lib_bullet) "2022-01-01" Sample.bond_data
    Sample.zero_curve i = Return (Sample.built Sample.bond_data i)
  ∧ date_ordered (H := Sample.lib_bullet)
      (QL.bond_cashflows (Sample.built Sample.bond_data i))
  ∧ date_ordered (H := Sample.lib_bullet)
      (QL.bond_redemptions (Sample.built Sample.bond_data i)).
Proof.
  intros Hi. repeat (apply elem_of_cons in Hi as [->|Hi]);
    try (split; [reflexivity|split; by apply dates_ordered_sound]).
  by apply elem_of_nil in Hi.
Qed.

Lemma totals_period_amounts_witness :
  (step_size (H := Sample.lib_bullet) "2022-01-01" "2025-01-01" 10 = Return 3
   ∧ ∀ i, i ∈ bond_data_index Sample.bond_data →
       fixed_rate_bond (H := Sample.lib_bullet) "2022-01-01" Sample.bond_data
         Sample.zero_curve i = Return (Sample.built Sample.bond_data i)
       ∧ date_ordered (H := Sample.lib_bullet)
           (QL.bond_cashflows (Sample.built Sample.bond_data i))
       ∧ date_ordered (H := Sample.lib_bullet)
           (QL.bond_redemptions (Sample.built Sample.bond_data i)))
  ∧ ∃ cf_total red_total,
      cashflows_total (H := Sample.lib_bullet) "2022-01-01" "2025-01-01"
        Sample.bond_data Sample.zero_curve 10 = Return cf_total
      ∧ redemptions_total (H := Sample.lib_bullet) "2022-01-01" "2025-01-01"
          Sample.bond_data Sample.zero_curve 10 = Return red_total
      ∧ length cf_total = 3 ∧ length red_total = 3
      ∧ ∀ t a b, t < 3 →
          date_ (H := Sample.lib_bullet) "2022-01-01" t = Return a →
          date_ (H := Sample.lib_bullet) "2022-01-01" (S t) = Return b →
          cf_total !! t
          = Some (fsum ((λ i, fsum (amounts_in (H := Sample.lib_bullet) a b
                                      (QL.bond_cashflows
                                         (Sample.built Sample.bond_data i))))
                        <$> bond_data_index Sample.bond_data))
          ∧ red_total !! t
            = Some (fsum ((λ i, fsum (amounts_in (H := Sample.lib_bullet) a b
                                        (QL.bond_redemptions
                                           (Sample.built Sample.bond_data i))))
                          <$> bond_data_index Sample.bond_data)).
Proof.
  split; [split; [reflexivity|exact sample_bonds_built]|].
  exact (totals_period_amounts (H := Sample.lib_bullet) (H0 := QuantLib_QL_laws _)
           "2022-01-01" "2025-01-01" Sample.bond_data Sample.zero_curve 10 3
           (Sample.built Sample.bond_data) eq_refl sample_bonds_built).
Defined.

Lemma step_size_at_most_days_witness :
  (Date_of_string (QuantLib := Sample.lib_bullet) "2022-01-01"
     = Some (QL.mkDate 2022 1 1)
   ∧ Date_of_string (QuantLib := Sample.lib_bullet) "2025-01-01"
     = Some (QL.mkDate 2025 1 1)
   ∧ step_size (H := Sample.lib_bullet) "2022-01-01" "2025-01-01" 10 = Return 3)
  ∧ 3 ≤ Z.to_nat (QL.serialNumber (QL.mkDate 2025 1 1)
                  - QL.serialNumber (QL.mkDate 2022 1 1)).
Proof.
  split; [by repeat split|].
  exact (step_size_at_most_days (H := Sample.lib_bullet) (H0 := QuantLib_QL_laws _)
           "2022-01-01" "2025-01-01" (QL.mkDate 2022 1 1) (QL.mkDate 2025 1 1) 10 3
           eq_refl eq_refl eq_refl).
Defined.

